(** * The upload-metadata store of tuspyserver ([src/tuspyserver/info.py])

    [TusUploadInfo] keeps the parameter record of one upload in memory and
    in a JSON file [<files_dir>/<uid>.info].  The development below embeds
    the class method by method over an explicit filesystem, a fault
    schedule for the system calls, the logger and the Python exceptions the
    code raises and catches, and proves the properties of the layer. *)

From Stdlib Require Import ZArith List Ascii String SpecFloat Lia.
From stdpp Require Import gmap strings pretty.
Import ListNotations.
Open Scope string_scope.

(** ** Python exceptions

    The classes the module names in an [except] clause, and those its
    calls raise besides.  [FileNotFoundError] is the [OSError] whose errno
    is [ENOENT] (Python picks the subclass from the errno), [IOError] is an
    alias of [OSError]; [json.JSONDecodeError] and [UnicodeDecodeError] are
    subclasses of [ValueError].  [OtherException] stands for any class
    unrelated to the named ones ([AttributeError], [RecursionError], ...). *)

Inductive errno := ENOENT | EACCES | EIO | ENOSPC | EROFS.

Inductive exn :=
| OSError (code : errno)
| TypeError (msg : string)
| ValueError (msg : string)
| JSONDecodeError (msg : string)
| UnicodeDecodeError (msg : string)
| KeyError (msg : string)
| OtherException (cls msg : string).

Definition isinstance_OSError (e : exn) : bool :=
  match e with OSError _ => true | _ => false end.

Definition isinstance_FileNotFoundError (e : exn) : bool :=
  match e with OSError ENOENT => true | _ => false end.

Definition isinstance_TypeError (e : exn) : bool :=
  match e with TypeError _ => true | _ => false end.

Definition isinstance_ValueError (e : exn) : bool :=
  match e with
  | ValueError _ | JSONDecodeError _ | UnicodeDecodeError _ => true
  | _ => false
  end.

Definition isinstance_JSONDecodeError (e : exn) : bool :=
  match e with JSONDecodeError _ => true | _ => false end.

Definition isinstance_KeyError (e : exn) : bool :=
  match e with KeyError _ => true | _ => false end.

(** Outcome of a call: a value, or a raised exception. *)
Inductive res (A : Type) : Type :=
| Ret (a : A)
| Raise (e : exn).
Arguments Ret {A} a.
Arguments Raise {A} e.

(** ** JSON values as [json.loads] returns them, and their truth value *)

#[warnings="-register-all"]
Inductive json :=
| JNull
| JBool (b : bool)
| JInt (n : Z)
| JFloat (x : spec_float)
| JStr (s : string)
| JList (items : list json)
| JDict (items : list (string * json)).

(** [bool(v)]: [None], [False], zero, and empty strings, lists and dicts
    are false. *)
Definition truthy (j : json) : bool :=
  match j with
  | JNull => false
  | JBool b => b
  | JInt n => negb (Z.eqb n 0)
  | JFloat (S754_zero _) => false
  | JFloat _ => true
  | JStr EmptyString => false
  | JStr _ => true
  | JList [] => false
  | JList _ => true
  | JDict [] => false
  | JDict _ => true
  end.

(** ** [str.strip()]

    A character is a code point below 256; the whitespace code points in
    that range are 9-13, 28-32, 133 and 160. *)

Definition isspace (c : ascii) : bool :=
  let n := nat_of_ascii c in
  (Nat.leb 9 n && Nat.leb n 13) || (Nat.leb 28 n && Nat.leb n 32)
  || Nat.eqb n 133 || Nat.eqb n 160.

Fixpoint lstrip (s : string) : string :=
  match s with
  | EmptyString => EmptyString
  | String c s' => if isspace c then lstrip s' else s
  end.

Fixpoint rstrip (s : string) : string :=
  match s with
  | EmptyString => EmptyString
  | String c s' =>
      match rstrip s' with
      | EmptyString => if isspace c then EmptyString else String c EmptyString
      | r => String c r
      end
  end.

Definition strip (s : string) : string := rstrip (lstrip s).

(** ** [os.path.join] (POSIX, two components) *)

Definition startswith_sep (s : string) : bool :=
  match s with String "/"%char _ => true | _ => false end.

Fixpoint endswith_sep (s : string) : bool :=
  match s with
  | EmptyString => false
  | String c EmptyString => Ascii.eqb c "/"%char
  | String _ s' => endswith_sep s'
  end.

Definition os_path_join (a b : string) : string :=
  if startswith_sep b then b
  else if String.eqb a "" || endswith_sep a then a +:+ b
  else a +:+ "/" +:+ b.

(** ** The logger *)

Inductive level := DEBUG | WARNING | ERROR.

(** One constructor per message template of the module. *)
Inductive message :=
| SerializeIOError (path : string) (e : exn)
| SerializeJSONError (path : string) (e : exn)
| CleanupFailed (temp_path : string) (e : exn)
| InfoFileEmpty (path : string)
| CorruptedJSON (path : string) (e : exn)
| NotFoundDuringRead (path : string)
| InvalidDataStructure (path : string) (e : exn)
| ReadIOError (path : string) (e : exn).

Record log_entry := LogEntry { lvl : level; msg : message }.

(** ** The filesystem, with injected faults

    A path maps to what the file there holds: text, or bytes that do not
    decode as text in the encoding of the locale.  Every system call is
    recorded in [trace].  A call that can fail consumes the head of the
    fault schedule: [Fault e n] makes it fail with errno [e] ([n] is how
    many characters a failing write still got out); an exhausted schedule
    means no fault. *)

Inductive fault := NoFault | Fault (e : errno) (progress : nat).

Inductive content :=
| Text (s : string)
| Undecodable (bytes : string).

Inductive syscall :=
| SysStat (p : string)
| SysOpenW (p : string)
| SysWrite (p : string)
| SysFlush (p : string)
| SysFsync (p : string)
| SysRename (src dst : string)
| SysUnlink (p : string)
| SysOpenR (p : string)
| SysRead (p : string).

Record World := mkWorld {
  fs : gmap string content;
  faults : list fault;
  log : list log_entry;
  trace : list syscall;
}.

Definition set_fs (f : gmap string content -> gmap string content) (w : World) : World :=
  mkWorld (f (fs w)) (faults w) (log w) (trace w).

Definition record (ev : syscall) (w : World) : World :=
  mkWorld (fs w) (faults w) (log w) (trace w ++ [ev]).

Definition pop_fault (w : World) : fault * World :=
  (hd NoFault (faults w), mkWorld (fs w) (tl (faults w)) (log w) (trace w)).

Definition emit (l : level) (m : message) (w : World) : World :=
  mkWorld (fs w) (faults w) (log w ++ [LogEntry l m]) (trace w).

(** A fallible system call: record it, then fail if the schedule says so
    ([ko] is what a failed call leaves behind), else run [ok]. *)
Definition sys {A} (ev : syscall) (ok : World -> res A * World)
    (ko : nat -> World -> World) (w : World) : res A * World :=
  match pop_fault (record ev w) with
  | (NoFault, w') => ok w'
  | (Fault e n, w') => (Raise (OSError e), ko n w')
  end.

Definition prefix (n : nat) (s : string) : string := String.substring 0 n s.

(** The text written so far to the file a handle opened for writing. *)
Definition content_of (m : gmap string content) (p : string) : string :=
  match m !! p with Some (Text c) => c | _ => "" end.

(** [os.path.exists]: never raises. *)
Definition os_path_exists (p : string) (w : World) : bool * World :=
  (match fs w !! p with Some _ => true | None => false end, record (SysStat p) w).

(** [open(p, "w")]: creates or truncates. The handle is the path. *)
Definition open_w (p : string) : World -> res string * World :=
  sys (SysOpenW p) (fun w => (Ret p, set_fs (insert p (Text "")) w)) (fun _ w => w).

(** [f.write(s)]: appends at the position of the handle. *)
Definition f_write (f s : string) : World -> res unit * World :=
  sys (SysWrite f)
      (fun w => (Ret tt, set_fs (fun m => <[f := Text (content_of m f +:+ s)]> m) w))
      (fun n w => set_fs (fun m => <[f := Text (content_of m f +:+ prefix n s)]> m) w).

Definition f_flush (f : string) : World -> res unit * World :=
  sys (SysFlush f) (fun w => (Ret tt, w)) (fun _ w => w).

Definition os_fsync (f : string) : World -> res unit * World :=
  sys (SysFsync f) (fun w => (Ret tt, w)) (fun _ w => w).

(** [os.rename(src, dst)]: atomic; a failed rename changes nothing. *)
Definition os_rename (src dst : string) : World -> res unit * World :=
  sys (SysRename src dst)
      (fun w => match fs w !! src with
                | Some c => (Ret tt, set_fs (fun m => <[dst := c]> (delete src m)) w)
                | None => (Raise (OSError ENOENT), w)
                end)
      (fun _ w => w).

Definition os_remove (p : string) : World -> res unit * World :=
  sys (SysUnlink p)
      (fun w => match fs w !! p with
                | Some _ => (Ret tt, set_fs (delete p) w)
                | None => (Raise (OSError ENOENT), w)
                end)
      (fun _ w => w).

(** [open(p, "r")]: the handle is what the file that was opened holds. *)
Definition open_r (p : string) : World -> res content * World :=
  sys (SysOpenR p)
      (fun w => match fs w !! p with
                | Some c => (Ret c, w)
                | None => (Raise (OSError ENOENT), w)
                end)
      (fun _ w => w).

(** [f.read()] in text mode: reads the bytes, then decodes them; bytes
    that do not decode raise [UnicodeDecodeError]. *)
Definition f_read (p : string) (handle : content) : World -> res string * World :=
  sys (SysRead p)
      (fun w => match handle with
                | Text s => (Ret s, w)
                | Undecodable _ =>
                    (Raise (UnicodeDecodeError "invalid start byte"), w)
                end)
      (fun _ w => w).

(** ** What [info.py] imports

    [tuspyserver.file] and [tuspyserver.params] are outside this module;
    only what [info.py] uses of them appears here. *)

(** Modelled from the spec: the configuration of the owning upload unit,
    of which [info.py] reads the storage directory. *)
Record TusUploadOptions := { files_dir : string }.

(** Modelled from the spec: the upload unit that owns the store, of which
    [info.py] reads the identifier and the options. *)
Record TusUploadFile := { uid : string; options : TusUploadOptions }.

(** The parameter class and the JSON codec, as [info.py] calls them:
    - [Params_bool p] is [bool(p)] in [if params and ...];
    - [json_dumps_default p] is
      [json.dumps(p, indent=4, default=lambda k: k.__dict__)];
    - [json_loads s] is [json.loads(s)]: the decoded value, or what it
      raises ([json.JSONDecodeError] on text that is not JSON, and also a
      plain [ValueError] on an integer literal beyond the digit limit or
      [RecursionError] on nesting too deep);
    - [TusUploadParams kw] is the constructor called with the entries of
      the dict [kw] as keyword arguments. *)
Class TusUploadParamsClass (Params : Type) := {
  Params_bool : Params -> bool;
  json_dumps_default : Params -> res string;
  json_loads : string -> res json;
  TusUploadParams : list (string * json) -> res Params;
}.

Section Store.
Context {Params : Type} `{!TusUploadParamsClass Params}.

(** ** The store object *)

Record TusUploadInfo := mkInfo {
  _params : option Params;
  _loaded : bool;
  file : TusUploadFile;
}.

(** A method runs on the object and the world, and keeps its changes to
    both when it raises. *)
Record Sigma := mkSigma { self : TusUploadInfo; world : World }.

Definition M (A : Type) : Type := Sigma -> res A * Sigma.

Definition ret {A} (a : A) : M A := fun s => (Ret a, s).

Definition raise {A} (e : exn) : M A := fun s => (Raise e, s).

Definition bind {A B} (m : M A) (k : A -> M B) : M B :=
  fun s => match m s with
           | (Ret a, s') => k a s'
           | (Raise e, s') => (Raise e, s')
           end.

Notation "x <- m ;; k" := (bind m (fun x => k))
  (at level 100, m at next level, right associativity).
Notation "m ;; k" := (bind m (fun _ => k))
  (at level 100, right associativity).

(** [try: body except ...]: [handler e] is [None] when no clause matches. *)
Definition try_except {A} (body : M A) (handler : exn -> option (M A)) : M A :=
  fun s => match body s with
           | (Raise e, s') =>
               match handler e with
               | Some h => h s'
               | None => (Raise e, s')
               end
           | r => r
           end.

Definition lift {A} (r : res A) : M A := fun s => (r, s).

Definition io {A} (f : World -> res A * World) : M A :=
  fun s => let (r, w) := f (world s) in (r, mkSigma (self s) w).

Definition logger (l : level) (m : message) : M unit :=
  fun s => (Ret tt, mkSigma (self s) (emit l m (world s))).

Definition get_self : M TusUploadInfo := fun s => (Ret (self s), s).

Definition set__params (v : option Params) : M unit :=
  fun s => (Ret tt, mkSigma (mkInfo v (_loaded (self s)) (file (self s))) (world s)).

Definition set__loaded (b : bool) : M unit :=
  fun s => (Ret tt, mkSigma (mkInfo (_params (self s)) b (file (self s))) (world s)).

(** A suspension point of a coroutine; the awaited call runs to its end. *)
Definition await {A} (m : M A) : M A := m.

(** [json.dumps(self._params, indent=4, default=lambda k: k.__dict__)] *)
Definition json_dumps (v : option Params) : res string :=
  match v with
  | None => Ret "null"
  | Some p => json_dumps_default p
  end.

(** The constructor call on the unpacked [json_dict]: unpacking with the
    double star needs a mapping. *)
Definition call_TusUploadParams (json_dict : json) : res Params :=
  match json_dict with
  | JDict kw => TusUploadParams kw
  | _ => Raise (TypeError "argument after ** must be a mapping")
  end.

(** [bool(params)] for the optional argument of the constructor. *)
Definition params_truthy (params : option Params) : bool :=
  match params with
  | None => false
  | Some p => Params_bool p
  end.

(** *** Properties [path] and [exists] *)

Definition path (self : TusUploadInfo) : string :=
  os_path_join (files_dir (options (file self))) (uid (file self) +:+ ".info").

Definition exists_ : M bool :=
  self <- get_self ;;
  io (fun w => let (b, w') := os_path_exists (path self) w in (Ret b, w')).

(** *** [_serialize_sync]

    Leaving the [with] block closes the file; after the explicit flush
    and fsync the close has nothing left to write and is not a step of
    its own. *)

Definition _serialize_sync : M unit :=
  self <- get_self ;;
  let temp_path := path self +:+ ".tmp" in
  try_except
    (f <- io (open_w temp_path) ;;
     json_string <- lift (json_dumps (_params self)) ;;
     io (f_write f json_string) ;;
     io (f_flush f) ;;
     io (os_fsync f) ;;
     io (os_rename temp_path (path self)))
    (fun err =>
       if isinstance_OSError err then Some
         (logger ERROR (SerializeIOError (path self) err) ;;
          try_except
            (ex <- io (fun w => let (b, w') := os_path_exists temp_path w in (Ret b, w')) ;;
             if ex then io (os_remove temp_path) else ret tt)
            (fun cleanup_err => Some (logger WARNING (CleanupFailed temp_path cleanup_err))) ;;
          raise err)
       else if isinstance_TypeError err || isinstance_ValueError err then Some
         (logger ERROR (SerializeJSONError (path self) err) ;;
          try_except
            (ex <- io (fun w => let (b, w') := os_path_exists temp_path w in (Ret b, w')) ;;
             if ex then io (os_remove temp_path) else ret tt)
            (fun cleanup_err => Some (logger WARNING (CleanupFailed temp_path cleanup_err))) ;;
          raise err)
       else None).

(** *** [serialize] (coroutine)

    [aiofiles] runs the blocking call of the same name on a worker
    thread, so each awaited call is the call itself. *)

Definition serialize : M unit :=
  self <- get_self ;;
  let temp_path := path self +:+ ".tmp" in
  try_except
    (f <- await (io (open_w temp_path)) ;;
     json_string <- lift (json_dumps (_params self)) ;;
     await (io (f_write f json_string)) ;;
     await (io (f_flush f)) ;;
     io (os_fsync f) ;;
     await (io (os_rename temp_path (path self))))
    (fun err =>
       if isinstance_OSError err then Some
         (logger ERROR (SerializeIOError (path self) err) ;;
          try_except
            (ex <- io (fun w => let (b, w') := os_path_exists temp_path w in (Ret b, w')) ;;
             if ex then await (io (os_remove temp_path)) else ret tt)
            (fun cleanup_err => Some (logger WARNING (CleanupFailed temp_path cleanup_err))) ;;
          raise err)
       else if isinstance_TypeError err || isinstance_ValueError err then Some
         (logger ERROR (SerializeJSONError (path self) err) ;;
          try_except
            (ex <- io (fun w => let (b, w') := os_path_exists temp_path w in (Ret b, w')) ;;
             if ex then await (io (os_remove temp_path)) else ret tt)
            (fun cleanup_err => Some (logger WARNING (CleanupFailed temp_path cleanup_err))) ;;
          raise err)
       else None).

(** *** [_deserialize_sync]

    The body of the [try] yields [Some v] where the source executes
    [return v] inside it, and [None] where control falls through to the
    final [return self._params]. *)

Definition _deserialize_sync : M (option Params) :=
  ex <- exists_ ;;
  early <-
    (if (ex : bool) then
       self <- get_self ;;
       try_except
         (f <- io (open_r (path self)) ;;
          content <- io (f_read (path self) f) ;;
          let content := strip content in
          if String.eqb content "" then
            logger WARNING (InfoFileEmpty (path self)) ;;
            ret (Some None)
          else
            json_dict <- lift (json_loads content) ;;
            (if truthy json_dict then
               p <- lift (call_TusUploadParams json_dict) ;;
               set__params (Some p)
             else set__params None) ;;
            ret None)
         (fun err =>
            if isinstance_JSONDecodeError err then Some
              (logger ERROR (CorruptedJSON (path self) err) ;;
               set__params None ;; ret None)
            else if isinstance_FileNotFoundError err then Some
              (logger DEBUG (NotFoundDuringRead (path self)) ;;
               set__params None ;; ret None)
            else if isinstance_KeyError err || isinstance_TypeError err then Some
              (logger ERROR (InvalidDataStructure (path self) err) ;;
               set__params None ;; ret None)
            else if isinstance_OSError err then Some
              (logger ERROR (ReadIOError (path self) err) ;;
               set__params None ;; ret None)
            else None)
     else
       set__params None ;; ret None) ;;
  match early with
  | Some v => ret v
  | None => self <- get_self ;; ret (_params self)
  end.

(** *** [deserialize] (coroutine) *)

Definition deserialize : M (option Params) :=
  ex <- exists_ ;;
  early <-
    (if (ex : bool) then
       self <- get_self ;;
       try_except
         (f <- await (io (open_r (path self))) ;;
          content <- await (io (f_read (path self) f)) ;;
          let content := strip content in
          if String.eqb content "" then
            logger WARNING (InfoFileEmpty (path self)) ;;
            ret (Some None)
          else
            json_dict <- lift (json_loads content) ;;
            (if truthy json_dict then
               p <- lift (call_TusUploadParams json_dict) ;;
               set__params (Some p)
             else set__params None) ;;
            ret None)
         (fun err =>
            if isinstance_JSONDecodeError err then Some
              (logger ERROR (CorruptedJSON (path self) err) ;;
               set__params None ;; ret None)
            else if isinstance_FileNotFoundError err then Some
              (logger DEBUG (NotFoundDuringRead (path self)) ;;
               set__params None ;; ret None)
            else if isinstance_KeyError err || isinstance_TypeError err then Some
              (logger ERROR (InvalidDataStructure (path self) err) ;;
               set__params None ;; ret None)
            else if isinstance_OSError err then Some
              (logger ERROR (ReadIOError (path self) err) ;;
               set__params None ;; ret None)
            else None)
     else
       set__params None ;; ret None) ;;
  match early with
  | Some v => ret v
  | None => self <- get_self ;; ret (_params self)
  end.

(** *** The accessors *)

(** [__init__(self, file, params=None)] *)
Definition __init__ (file : TusUploadFile) (params : option Params)
    (w : World) : res unit * Sigma :=
  let self :=
    mkInfo params (match params with Some _ => true | None => false end) file in
  (if params_truthy params then
     ex <- exists_ ;;
     if negb ex then _serialize_sync else ret tt
   else ret tt) (mkSigma self w).

(** The getter of property [params]. *)
Definition params : M (option Params) :=
  self <- get_self ;;
  (if negb (_loaded self) then
     _deserialize_sync ;;
     set__loaded true
   else ret tt) ;;
  self <- get_self ;;
  ret (_params self).

(** The setter of property [params]. *)
Definition params_setter (value : option Params) : M unit :=
  set__params value ;;
  set__loaded true ;;
  _serialize_sync.

Definition update_params (value : option Params) : M unit :=
  set__params value ;;
  set__loaded true ;;
  await serialize.

Definition load_params : M (option Params) :=
  self <- get_self ;;
  (if negb (_loaded self) then
     await deserialize ;;
     set__loaded true
   else ret tt) ;;
  self <- get_self ;;
  ret (_params self).

End Store.

Arguments TusUploadInfo : clear implicits.
Arguments Sigma : clear implicits.
Arguments M : clear implicits.

(** * A sample parameter class

    An instance of the class above, with a JSON codec for the fragment of
    JSON its records need (integers, strings, lists and objects; indent of
    four as [json.dumps(..., indent=4)] prints it).  The examples at the
    end run the store on it. *)
Module Sample.

(** The expiry is absent, an ISO date in a string, or a datetime object
    someone assigned to the field: a value the JSON encoder does not know
    and hands to the [default] hook, where it has no [__dict__]. *)
Inductive expiry := NoExpiry | ExpiresAt (iso : string) | ExpiresDatetime (epoch : Z).

(** Modelled from the spec: the parameter record of [tuspyserver.params],
    which [info.py] imports but does not define: offset, size,
    client-supplied metadata and, as further bookkeeping, an expiry. *)
Record Params := mkParams {
  offset : Z;
  size : Z;
  metadata : list (string * string);
  expires : expiry;
}.

(** *** Printing *)

Definition dquote : ascii := ascii_of_nat 34.
Definition backslash : ascii := ascii_of_nat 92.

Fixpoint escape (s : string) : string :=
  match s with
  | EmptyString => EmptyString
  | String c s' =>
      if Ascii.eqb c dquote || Ascii.eqb c backslash
      then String backslash (String c (escape s'))
      else String c (escape s')
  end.

Definition quote (s : string) : string :=
  String dquote (escape s) +:+ String dquote EmptyString.

Fixpoint spaces (n : nat) : string :=
  match n with O => "" | S n' => " " +:+ spaces n' end.

Definition newline : string := String (ascii_of_nat 10) EmptyString.

Fixpoint join_lines (sep : string) (l : list string) : string :=
  match l with
  | [] => ""
  | [x] => x
  | x :: rest => x +:+ sep +:+ join_lines sep rest
  end.

Fixpoint print (ind : nat) (j : json) : string :=
  match j with
  | JNull => "null"
  | JBool true => "true"
  | JBool false => "false"
  | JInt n => pretty n
  | JFloat _ => "NaN"
  | JStr s => quote s
  | JList [] => "[]"
  | JList items =>
      "[" +:+ newline +:+ spaces (ind + 4)
      +:+ join_lines ("," +:+ newline +:+ spaces (ind + 4)) (map (print (ind + 4)) items)
      +:+ newline +:+ spaces ind +:+ "]"
  | JDict [] => "{}"
  | JDict items =>
      "{" +:+ newline +:+ spaces (ind + 4)
      +:+ join_lines ("," +:+ newline +:+ spaces (ind + 4))
            (map (fun kv => quote (fst kv) +:+ ": " +:+ print (ind + 4) (snd kv)) items)
      +:+ newline +:+ spaces ind +:+ "}"
  end.

(** [p.__dict__], encoded. *)
Definition to_json (p : Params) : json :=
  JDict [("offset", JInt (offset p)); ("size", JInt (size p));
         ("metadata", JDict (map (fun kv => (fst kv, JStr (snd kv))) (metadata p)));
         ("expires", match expires p with
                     | ExpiresAt iso => JStr iso
                     | _ => JNull
                     end)].

Definition dumps (p : Params) : res string :=
  match expires p with
  | ExpiresDatetime _ =>
      Raise (OtherException "AttributeError" "datetime object has no attribute __dict__")
  | _ => Ret (print 0 (to_json p))
  end.

(** *** Parsing *)

Fixpoint skip_ws (s : string) : string :=
  match s with
  | String c s' =>
      if Ascii.eqb c " "%char || Ascii.eqb c (ascii_of_nat 10)
         || Ascii.eqb c (ascii_of_nat 9) || Ascii.eqb c (ascii_of_nat 13)
      then skip_ws s' else s
  | EmptyString => EmptyString
  end.

Definition digit (c : ascii) : option Z :=
  let n := nat_of_ascii c in
  if Nat.leb 48 n && Nat.leb n 57 then Some (Z.of_nat (n - 48)) else None.

Fixpoint parse_digits (acc : Z) (s : string) : Z * string :=
  match s with
  | String c s' =>
      match digit c with
      | Some d => parse_digits (10 * acc + d) s'
      | None => (acc, s)
      end
  | EmptyString => (acc, s)
  end.

Definition parse_nat (s : string) : option (Z * string) :=
  match s with
  | String c _ =>
      match digit c with
      | Some _ => Some (parse_digits 0 s)
      | None => None
      end
  | EmptyString => None
  end.

(** The text after an opening quote, up to the closing one. *)
Fixpoint parse_chars (s : string) : option (string * string) :=
  match s with
  | EmptyString => None
  | String c s' =>
      if Ascii.eqb c dquote then Some (EmptyString, s')
      else if Ascii.eqb c backslash then
        match s' with
        | String e s'' =>
            if Ascii.eqb e dquote || Ascii.eqb e backslash then
              match parse_chars s'' with
              | Some (r, rest) => Some (String e r, rest)
              | None => None
              end
            else None
        | EmptyString => None
        end
      else
        match parse_chars s' with
        | Some (r, rest) => Some (String c r, rest)
        | None => None
        end
  end.

Definition expect (c : ascii) (s : string) : option string :=
  match s with
  | String c' s' => if Ascii.eqb c c' then Some s' else None
  | EmptyString => None
  end.

Definition starts (p s : string) : option string :=
  if String.prefix p s
  then Some (String.substring (String.length p) (String.length s - String.length p) s)
  else None.

Fixpoint parse_value (fuel : nat) (s : string) : option (json * string) :=
  match fuel with
  | O => None
  | S fuel' =>
      let parse_items :=
        fix items (n : nat) (s : string) : option (list json * string) :=
          match n with
          | O => None
          | S n' =>
              match parse_value fuel' (skip_ws s) with
              | Some (v, rest) =>
                  match skip_ws rest with
                  | String "," rest' =>
                      match items n' rest' with
                      | Some (vs, rest'') => Some (v :: vs, rest'')
                      | None => None
                      end
                  | String "]" rest' => Some ([v], rest')
                  | _ => None
                  end
              | None => None
              end
          end in
      let parse_members :=
        fix members (n : nat) (s : string) : option (list (string * json) * string) :=
          match n with
          | O => None
          | S n' =>
              match expect dquote (skip_ws s) with
              | Some s1 =>
                  match parse_chars s1 with
                  | Some (k, s2) =>
                      match expect ":" (skip_ws s2) with
                      | Some s3 =>
                          match parse_value fuel' (skip_ws s3) with
                          | Some (v, rest) =>
                              match skip_ws rest with
                              | String "," rest' =>
                                  match members n' rest' with
                                  | Some (kvs, rest'') => Some ((k, v) :: kvs, rest'')
                                  | None => None
                                  end
                              | String "}" rest' => Some ([(k, v)], rest')
                              | _ => None
                              end
                          | None => None
                          end
                      | None => None
                      end
                  | None => None
                  end
              | None => None
              end
          end in
      match s with
      | String "n" _ =>
          match starts "null" s with Some r => Some (JNull, r) | None => None end
      | String "t" _ =>
          match starts "true" s with Some r => Some (JBool true, r) | None => None end
      | String "f" _ =>
          match starts "false" s with Some r => Some (JBool false, r) | None => None end
      | String (Ascii false true false false false true false false) s' =>
          match parse_chars s' with
          | Some (str, r) => Some (JStr str, r)
          | None => None
          end
      | String "-" s' =>
          match parse_nat s' with
          | Some (n, r) => Some (JInt (- n), r)
          | None => None
          end
      | String "[" s' =>
          match skip_ws s' with
          | String "]" r => Some (JList [], r)
          | _ =>
              match parse_items (String.length s') s' with
              | Some (vs, r) => Some (JList vs, r)
              | None => None
              end
          end
      | String "{" s' =>
          match skip_ws s' with
          | String "}" r => Some (JDict [], r)
          | _ =>
              match parse_members (String.length s') s' with
              | Some (kvs, r) => Some (JDict kvs, r)
              | None => None
              end
          end
      | _ =>
          match parse_nat s with
          | Some (n, r) => Some (JInt n, r)
          | None => None
          end
      end
  end.

Definition loads (s : string) : option json :=
  match parse_value (S (String.length s)) (skip_ws s) with
  | Some (j, rest) =>
      match skip_ws rest with
      | EmptyString => Some j
      | _ => None
      end
  | None => None
  end.

(** *** The constructor: four keyword arguments, each of its type *)

Fixpoint lookup_kw (k : string) (kw : list (string * json)) : option json :=
  match kw with
  | [] => None
  | (k', v) :: rest => if String.eqb k k' then Some v else lookup_kw k rest
  end.

Fixpoint as_metadata (items : list (string * json)) : option (list (string * string)) :=
  match items with
  | [] => Some []
  | (k, JStr v) :: rest =>
      match as_metadata rest with
      | Some r => Some ((k, v) :: r)
      | None => None
      end
  | _ => None
  end.

Definition known_key (k : string) : bool :=
  String.eqb k "offset" || String.eqb k "size" || String.eqb k "metadata"
  || String.eqb k "expires".

Definition as_expiry (j : json) : option expiry :=
  match j with
  | JNull => Some NoExpiry
  | JStr iso => Some (ExpiresAt iso)
  | _ => None
  end.

Definition as_int (j : json) : option Z :=
  match j with JInt n => Some n | _ => None end.

Definition as_dict (j : json) : option (list (string * json)) :=
  match j with JDict items => Some items | _ => None end.

(** The keyword argument [k], converted; a missing or mistyped argument
    is a [TypeError]. *)
Definition arg {A} (conv : json -> option A) (k : string)
    (kw : list (string * json)) : res A :=
  match lookup_kw k kw with
  | None => Raise (TypeError "missing required argument")
  | Some j =>
      match conv j with
      | Some a => Ret a
      | None => Raise (TypeError "mistyped argument")
      end
  end.

Definition construct (kw : list (string * json)) : res Params :=
  if negb (forallb (fun kv => known_key (fst kv)) kw) then
    Raise (TypeError "unexpected keyword argument")
  else
    match arg as_int "offset" kw with
    | Raise e => Raise e
    | Ret o =>
    match arg as_int "size" kw with
    | Raise e => Raise e
    | Ret sz =>
    match arg (fun j => match as_dict j with
                        | Some m => as_metadata m
                        | None => None
                        end) "metadata" kw with
    | Raise e => Raise e
    | Ret md =>
    match arg as_expiry "expires" kw with
    | Raise e => Raise e
    | Ret ex => Ret (mkParams o sz md ex)
    end end end end.

(** [json.loads] on the fragment: what [loads] does not parse is
    reported as [json.JSONDecodeError]. *)
Definition json_loads_sample (s : string) : res json :=
  match loads s with
  | Some j => Ret j
  | None => Raise (JSONDecodeError s)
  end.

#[export] Instance sample_class : TusUploadParamsClass Params := {|
  Params_bool := fun _ => true;
  json_dumps_default := dumps;
  json_loads := json_loads_sample;
  TusUploadParams := construct;
|}.

Definition a_file : TusUploadFile :=
  {| uid := "3f2a"; options := {| files_dir := "/srv/uploads" |} |}.

Definition a_record : Params :=
  mkParams 512 2048 [("filename", "report.pdf"); ("filetype", "application/pdf")]
           (ExpiresAt "2026-11-03T20:04:00").

(** The same upload after [expires] was assigned a datetime object. *)
Definition an_unserializable_record : Params :=
  mkParams 512 2048 [("filename", "report.pdf")] (ExpiresDatetime 1793736240).

Definition a_path : string := "/srv/uploads/3f2a.info".

Definition no_files : World := mkWorld ∅ [] [] [].

End Sample.

(** * Specification vocabulary *)

(** The exception of the [n]-th fallible system call from now on. *)
Definition fault_at (n : nat) (fl : list fault) : option exn :=
  match nth n fl NoFault with
  | NoFault => None
  | Fault e _ => Some (OSError e)
  end.

Definition or_else {A} (a b : option A) : option A :=
  match a with Some _ => a | None => b end.

(** The first step of the atomic persist that fails, when the record
    encodes to [enc] and the schedule is [fl]: open the temp file, encode,
    write, flush, fsync, rename. [None] when every step succeeds. *)
Definition first_failure (enc : res string) (fl : list fault) : option exn :=
  or_else (fault_at 0 fl)
  (or_else (match enc with Raise e => Some e | Ret _ => None end)
  (or_else (fault_at 1 fl)
  (or_else (fault_at 2 fl)
  (or_else (fault_at 3 fl) (fault_at 4 fl))))).

Definition outcome (failure : option exn) : res unit :=
  match failure with Some e => Raise e | None => Ret tt end.

(** The classes the write path names in its [except] clauses. *)
Definition write_handled (e : exn) : bool :=
  isinstance_OSError e || isinstance_TypeError e || isinstance_ValueError e.

(** The record the write path logs for [e]. *)
Definition write_error (p : string) (e : exn) : log_entry :=
  if isinstance_OSError e then LogEntry ERROR (SerializeIOError p e)
  else LogEntry ERROR (SerializeJSONError p e).

(** The classes the read path names in its [except] clauses. *)
Definition read_handled (e : exn) : bool :=
  isinstance_JSONDecodeError e || isinstance_FileNotFoundError e
  || isinstance_KeyError e || isinstance_TypeError e || isinstance_OSError e.

(** The record the read path logs for [e], by the first clause that
    matches. *)
Definition read_error (p : string) (e : exn) : log_entry :=
  if isinstance_JSONDecodeError e then LogEntry ERROR (CorruptedJSON p e)
  else if isinstance_FileNotFoundError e then LogEntry DEBUG (NotFoundDuringRead p)
  else if isinstance_KeyError e || isinstance_TypeError e
       then LogEntry ERROR (InvalidDataStructure p e)
  else LogEntry ERROR (ReadIOError p e).

(** The path a store of upload [f] is bound to ([path] of the store). *)
Definition path_of_file (f : TusUploadFile) : string :=
  os_path_join (files_dir (options f)) (uid f +:+ ".info").

Section Specs.
Context {Params : Type} `{!TusUploadParamsClass Params}.

(** A store as [__init__] leaves it when no record is passed. *)
Definition fresh (f : TusUploadFile) : TusUploadInfo Params := mkInfo None false f.

(** A valid record: it encodes, and the text decodes back to it. *)
Definition roundtrips (R : Params) : Prop :=
  exists body kw,
    json_dumps_default R = Ret body /\
    String.eqb (strip body) "" = false /\
    json_loads (strip body) = Ret (JDict kw) /\
    truthy (JDict kw) = true /\
    TusUploadParams kw = Ret R.

(** The on-disk states on which a load degrades to [None], with what the
    read path logs on each: the file is absent; it cannot be opened or
    read; it is blank; its text is not JSON; its JSON is true as a
    condition but is no record (the unpacking or the constructor raises
    [KeyError] or [TypeError]). *)
Inductive degraded (p : string) (w : World) : list log_entry -> Prop :=
| FileAbsent :
    fs w !! p = None ->
    degraded p w []
| OpenFails c e :
    fs w !! p = Some c ->
    fault_at 0 (faults w) = Some e ->
    degraded p w [read_error p e]
| ReadFails c e :
    fs w !! p = Some c ->
    fault_at 0 (faults w) = None ->
    fault_at 1 (faults w) = Some e ->
    degraded p w [read_error p e]
| FileEmpty c :
    fs w !! p = Some (Text c) ->
    fault_at 0 (faults w) = None ->
    fault_at 1 (faults w) = None ->
    String.eqb (strip c) "" = true ->
    degraded p w [LogEntry WARNING (InfoFileEmpty p)]
| MalformedJSON c e :
    fs w !! p = Some (Text c) ->
    fault_at 0 (faults w) = None ->
    fault_at 1 (faults w) = None ->
    String.eqb (strip c) "" = false ->
    json_loads (strip c) = Raise e ->
    isinstance_JSONDecodeError e = true ->
    degraded p w [LogEntry ERROR (CorruptedJSON p e)]
| InvalidRecord c j e :
    fs w !! p = Some (Text c) ->
    fault_at 0 (faults w) = None ->
    fault_at 1 (faults w) = None ->
    String.eqb (strip c) "" = false ->
    json_loads (strip c) = Ret j ->
    truthy j = true ->
    call_TusUploadParams j = Raise e ->
    isinstance_KeyError e || isinstance_TypeError e = true ->
    degraded p w [LogEntry ERROR (InvalidDataStructure p e)].

(** The calls a client can make on a store, and a change of the files by
    another process. *)
Inductive call :=
| CallGet
| CallSet (value : option Params)
| CallLoadParams
| CallUpdateParams (value : option Params)
| CallExists
| CallSerializeSync
| CallSerialize
| CallDeserializeSync
| CallDeserialize
| Outside (change : gmap string content -> gmap string content).

(** The state after a call, whether it returned or raised. *)
Definition perform (c : call) (s : Sigma Params) : Sigma Params :=
  match c with
  | CallGet => snd (params s)
  | CallSet v => snd (params_setter v s)
  | CallLoadParams => snd (load_params s)
  | CallUpdateParams v => snd (update_params v s)
  | CallExists => snd (exists_ s)
  | CallSerializeSync => snd (_serialize_sync s)
  | CallSerialize => snd (serialize s)
  | CallDeserializeSync => snd (_deserialize_sync s)
  | CallDeserialize => snd (deserialize s)
  | Outside g => mkSigma (self s) (set_fs g (world s))
  end.

Definition is_accessor (c : call) : bool :=
  match c with CallGet | CallLoadParams => true | _ => false end.

(** How many of the accessor calls in [cs] reach the filesystem. *)
Fixpoint accessor_loads (cs : list call) (s : Sigma Params) : nat :=
  match cs with
  | [] => 0
  | c :: cs' =>
      let s' := perform c s in
      (if is_accessor c
          && negb (Nat.eqb (length (trace (world s'))) (length (trace (world s))))
       then 1 else 0)
      + accessor_loads cs' s'
  end.

(** Whether the accessor call [c] raises in state [s]. *)
Definition accessor_raises (c : call) (s : Sigma Params) : bool :=
  match c with
  | CallGet => match fst (params s) with Raise _ => true | Ret _ => false end
  | CallLoadParams => match fst (load_params s) with Raise _ => true | Ret _ => false end
  | _ => false
  end.

(** How many of the accessor calls in [cs] raise. *)
Fixpoint accessor_failures (cs : list call) (s : Sigma Params) : nat :=
  match cs with
  | [] => 0
  | c :: cs' =>
      (if accessor_raises c s then 1 else 0) + accessor_failures cs' (perform c s)
  end.

End Specs.

Arguments call : clear implicits.

(** * Scenarios on the sample class *)
Module Scenario.
Import Sample.

(** A store over the sample upload, without and with a cached record. *)
Definition cold : TusUploadInfo Params := fresh a_file.
Definition warm : TusUploadInfo Params := mkInfo (Some a_record) true a_file.

(** The upload directory holding the info file with text [c]. *)
Definition with_file (c : string) (fl : list fault) : World :=
  mkWorld {[ a_path := Text c ]} fl [] [].

Definition a_temp_path : string := a_path +:+ ".tmp".

(** The world after [set(a_record)] on [cold] in the empty directory. *)
Definition after_set : World :=
  world (snd (params_setter (Some a_record) (mkSigma cold no_files))).

End Scenario.

(** * More vocabulary: system calls, paths, documents *)

(** The system calls a persist may issue for canonical path [p] and temp
    path [t]: everything happens on [t], but the rename onto [p]. *)
Definition persist_call (p t : string) (ev : syscall) : bool :=
  match ev with
  | SysOpenW q | SysWrite q | SysFlush q | SysFsync q | SysUnlink q | SysStat q =>
      String.eqb q t
  | SysRename a b => String.eqb a t && String.eqb b p
  | SysOpenR _ | SysRead _ => false
  end.

Definition is_rename (ev : syscall) : bool :=
  match ev with SysRename _ _ => true | _ => false end.

(** The system calls of a successful persist, in order. *)
Definition persist_calls (p t : string) : list syscall :=
  [SysOpenW t; SysWrite t; SysFlush t; SysFsync t; SysRename t p].

(** The system calls of a load: a prefix of stat, open, read on [p]. *)
Definition load_calls (p : string) (evs : list syscall) : Prop :=
  evs = [SysStat p] \/ evs = [SysStat p; SysOpenR p] \/
  evs = [SysStat p; SysOpenR p; SysRead p].

(** A JSON value the double star can unpack. *)
Definition is_mapping (j : json) : bool :=
  match j with JDict _ => true | _ => false end.

Section MoreSpecs.
Context {Params : Type} `{!TusUploadParamsClass Params}.

(** The file text [c] is a document of record [R]: it is not blank, it is
    JSON for a non-empty object, and the constructor accepts the object and
    builds [R]. *)
Definition document_of (c : string) (R : Params) : Prop :=
  String.eqb (strip c) "" = false /\
  exists kw, json_loads (strip c) = Ret (JDict kw) /\
             truthy (JDict kw) = true /\
             TusUploadParams kw = Ret R.

(** A call made on the store, as opposed to a change from outside. *)
Definition is_store_call (c : call Params) : bool :=
  match c with Outside _ => false | _ => true end.

End MoreSpecs.

(** * A validating parameter class

    The sample record behind a constructor that validates its arguments
    and reports a rejected one as a [ValueError], as validation libraries
    do. *)
Module Validating.

Definition construct (kw : list (string * json)) : res Sample.Params :=
  match Sample.construct kw with
  | Ret p => Ret p
  | Raise _ => Raise (ValueError "validation error")
  end.

Definition validating_class : TusUploadParamsClass Sample.Params := {|
  Params_bool := fun _ => true;
  json_dumps_default := Sample.dumps;
  json_loads := Sample.json_loads_sample;
  TusUploadParams := construct;
|}.

End Validating.

(** * More scenarios on the sample class *)
Module Scenario2.
Import Sample.

(** Another upload in the same directory. *)
Definition b_file : TusUploadFile :=
  {| uid := "77aa"; options := {| files_dir := "/srv/uploads" |} |}.

(** The info file of [a_record] as [json.dumps] prints it. *)
Definition a_document : string := print 0 (to_json a_record).

(** An object that lacks most fields of the record. *)
Definition a_partial_document : string := print 0 (JDict [("offset", JInt 1)]).

Definition newline_padded (c : string) : string :=
  " " +:+ c +:+ String (ascii_of_nat 10) EmptyString.

(** The upload directory with an info file of one byte, 255, which is no
    text in UTF-8. *)
Definition garbled : World :=
  mkWorld {[ a_path := Undecodable (String (ascii_of_nat 255) EmptyString) ]} [] [] [].

End Scenario2.

(** * Properties *)

Section Properties.
Context {Params : Type} `{!TusUploadParamsClass Params}.

Lemma length_append (a b : string) :
  String.length (a +:+ b) = String.length a + String.length b.
Proof. induction a as [|c a IH]; simpl; [reflexivity | now rewrite IH]. Qed.

Lemma temp_path_fresh (p : string) : p +:+ ".tmp" <> p.
Proof.
  intros E. apply (f_equal String.length) in E.
  rewrite length_append in E. simpl in E. lia.
Qed.

(** Symbolic execution of the monadic code. *)
Ltac run :=
  cbv beta iota zeta delta
    [bind try_except io get_self lift logger raise ret await set__params
     set__loaded exists_ open_w f_write f_flush os_fsync os_rename os_remove
     os_path_exists open_r f_read sys pop_fault record set_fs emit content_of
     self world fs faults log trace outcome];
  cbn [hd tl _params _loaded file isinstance_OSError isinstance_TypeError
       isinstance_ValueError isinstance_JSONDecodeError isinstance_KeyError
       isinstance_FileNotFoundError orb negb].

Ltac crunch :=
  repeat (run;
    first
    [ rewrite lookup_insert_eq
    | rewrite lookup_delete_eq
    | match goal with
      | |- context [hd NoFault ?l] => is_var l; destruct l as [|[|? ?] l]
      | |- context [match json_dumps ?v with _ => _ end] =>
          destruct (json_dumps v) eqn:?
      | |- context [match ?m !! ?k with _ => _ end] =>
          is_var m; destruct (m !! k) eqn:?
      | |- context [if isinstance_OSError ?e then _ else _] => is_var e; destruct e
      end ]).

(** What [_serialize_sync] does, by the first step that fails. *)
Lemma _serialize_sync_outcome (s : TusUploadInfo Params) (w : World) :
  let p := path s in
  let t := p +:+ ".tmp" in
  let failure := first_failure (json_dumps (_params s)) (faults w) in
  exists w',
    _serialize_sync (mkSigma s w) = (outcome failure, mkSigma s w') /\
    (forall q, q <> p -> q <> t -> fs w' !! q = fs w !! q) /\
    match failure with
    | None =>
        (exists body, json_dumps (_params s) = Ret body /\
                      fs w' !! p = Some (Text body)) /\
        fs w' !! t = None /\ log w' = log w
    | Some e =>
        fs w' !! p = fs w !! p /\
        if write_handled e then
          (log w' = (log w ++ [write_error p e])%list /\ fs w' !! t = None) \/
          (exists ce, log w' = (log w ++ [write_error p e; LogEntry WARNING (CleanupFailed t ce)])%list)
        else
          log w' = log w /\ fs w' !! t = Some (Text "") /\
          trace w' = (trace w ++ [SysOpenW t])%list
    end.
Proof.
  intros p t failure. subst failure t p.
  unfold _serialize_sync.
  destruct w as [m fl lg tr]. run.
  pose proof (temp_path_fresh (path s)) as Hne.
  generalize dependent (path s). intros p Hne.
  generalize dependent (p +:+ ".tmp"). intros t Hne.
  unfold first_failure, fault_at, or_else.
  crunch.
  all: cbn [nth]; eexists; (split; [reflexivity|]); cbn [fs log faults trace append].
  all: unfold write_handled, write_error;
       cbn [isinstance_OSError isinstance_TypeError isinstance_ValueError orb].
  all: repeat match goal with
         | |- _ /\ _ => split
         | |- forall _, _ => intro
         | |- exists _, _ => eexists
         end.
  all: try (simplify_map_eq; done).
  all: try (left; split; [reflexivity | simplify_map_eq; done]).
  all: right; eexists; rewrite <- List.app_assoc; reflexivity.
Qed.

Lemma serialize_eq : serialize = _serialize_sync.
Proof. reflexivity. Qed.

Lemma deserialize_eq : deserialize = _deserialize_sync.
Proof. reflexivity. Qed.

(** What [_deserialize_sync] does, case by case. *)
Lemma _deserialize_sync_cases (s : TusUploadInfo Params) m fl lg tr :
  _deserialize_sync (mkSigma s (mkWorld m fl lg tr)) =
  let p := path s in
  let cleared := mkInfo None (_loaded s) (file s) in
  let tr1 := (tr ++ [SysStat p])%list in
  match m !! p with
  | None => (Ret None, mkSigma cleared (mkWorld m fl lg tr1))
  | Some c =>
      match hd NoFault fl with
      | Fault e _ =>
          (Ret None,
           mkSigma cleared
             (mkWorld m (tl fl) (lg ++ [read_error p (OSError e)]) (tr1 ++ [SysOpenR p])))
      | NoFault =>
          let tr2 := ((tr1 ++ [SysOpenR p]) ++ [SysRead p])%list in
          match hd NoFault (tl fl) with
          | Fault e _ =>
              (Ret None,
               mkSigma cleared
                 (mkWorld m (tl (tl fl)) (lg ++ [read_error p (OSError e)]) tr2))
          | NoFault =>
              let w2 := mkWorld m (tl (tl fl)) lg tr2 in
              match c with
              | Undecodable _ =>
                  (Raise (UnicodeDecodeError "invalid start byte"), mkSigma s w2)
              | Text c =>
                  if String.eqb (strip c) "" then
                    (Ret None, mkSigma s (emit WARNING (InfoFileEmpty p) w2))
                  else
                    match json_loads (strip c) with
                    | Raise e =>
                        if read_handled e then
                          (Ret None,
                           mkSigma cleared
                             (mkWorld m (tl (tl fl)) (lg ++ [read_error p e]) tr2))
                        else (Raise e, mkSigma s w2)
                    | Ret j =>
                        if truthy j then
                          match call_TusUploadParams j with
                          | Ret R =>
                              (Ret (Some R),
                               mkSigma (mkInfo (Some R) (_loaded s) (file s)) w2)
                          | Raise e =>
                              if read_handled e then
                                (Ret None,
                                 mkSigma cleared
                                   (mkWorld m (tl (tl fl)) (lg ++ [read_error p e]) tr2))
                              else (Raise e, mkSigma s w2)
                          end
                        else (Ret None, mkSigma cleared w2)
                    end
              end
          end
      end
  end.
Proof.
  unfold _deserialize_sync. run.
  destruct (m !! path s) as [c|] eqn:Hm; [|reflexivity].
  run.
  destruct (hd NoFault fl) as [|e n]; run.
  2: { unfold read_error. destruct e; reflexivity. }
  rewrite Hm; run.
  destruct (hd NoFault (tl fl)) as [|e n]; run.
  2: { unfold read_error. destruct e; reflexivity. }
  destruct c as [c|b]; run; [|reflexivity].
  destruct (String.eqb (strip c) ""); run; [reflexivity|].
  destruct (json_loads (strip c)) as [j|e]; run.
  - destruct (truthy j); run; [|reflexivity].
    destruct (call_TusUploadParams j) as [R|e]; run; [reflexivity|].
    unfold read_handled, read_error.
    destruct e as [[]| | | | | |]; reflexivity.
  - unfold read_handled, read_error.
    destruct e as [[]| | | | | |]; reflexivity.
Qed.

(** ** The accessors, in terms of the two routines *)

Lemma path_path_of_file (s : TusUploadInfo Params) : path s = path_of_file (file s).
Proof. reflexivity. Qed.

Lemma params_unfold (s : TusUploadInfo Params) (w : World) :
  params (mkSigma s w) =
  if _loaded s then (Ret (_params s), mkSigma s w)
  else
    match _deserialize_sync (mkSigma s w) with
    | (Ret _, s1) =>
        (Ret (_params (self s1)),
         mkSigma (mkInfo (_params (self s1)) true (file (self s1))) (world s1))
    | (Raise e, s1) => (Raise e, s1)
    end.
Proof.
  unfold params. run. destruct (_loaded s); run; [reflexivity|].
  destruct (_deserialize_sync (mkSigma s w)) as [[v|e] s1]; reflexivity.
Qed.

Lemma params_setter_unfold (v : option Params) (s : TusUploadInfo Params) (w : World) :
  params_setter v (mkSigma s w) = _serialize_sync (mkSigma (mkInfo v true (file s)) w).
Proof. reflexivity. Qed.

Lemma load_params_eq : load_params = params.
Proof. reflexivity. Qed.

Lemma update_params_eq : update_params = params_setter.
Proof. reflexivity. Qed.

Lemma fault_at_0 (fl : list fault) :
  fault_at 0 fl = None -> hd NoFault fl = NoFault.
Proof. destruct fl as [|[|e n] fl]; cbn; congruence. Qed.

Lemma fault_at_1 (fl : list fault) :
  fault_at 1 fl = None -> hd NoFault (tl fl) = NoFault.
Proof. destruct fl as [|f [|[|e n] fl]]; cbn; congruence. Qed.

Lemma fault_at_0_Some (fl : list fault) (e : exn) :
  fault_at 0 fl = Some e -> exists c n, e = OSError c /\ hd NoFault fl = Fault c n.
Proof. destruct fl as [|[|c n] fl]; cbn; intros [=]; subst; eauto. Qed.

Lemma fault_at_1_Some (fl : list fault) (e : exn) :
  fault_at 1 fl = Some e -> exists c n, e = OSError c /\ hd NoFault (tl fl) = Fault c n.
Proof. destruct fl as [|f [|[|c n] fl]]; cbn; intros [=]; subst; eauto. Qed.

(** A load changes neither [_loaded], nor the binding, nor the files. *)
Lemma _deserialize_sync_frame (s : TusUploadInfo Params) (w : World) :
  _loaded (self (snd (_deserialize_sync (mkSigma s w)))) = _loaded s /\
  file (self (snd (_deserialize_sync (mkSigma s w)))) = file s /\
  fs (world (snd (_deserialize_sync (mkSigma s w)))) = fs w.
Proof.
  destruct w as [m fl lg tr]. rewrite _deserialize_sync_cases. cbv zeta.
  destruct s as [v l f]. cbn [_loaded file _params].
  repeat match goal with
         | |- context [match ?x with _ => _ end] => destruct x
         end; cbn; auto.
Qed.

(** C6 — Blocking/non-blocking equivalence: on every store state and
    world, [load_params] (asyncGet) and the getter of [params] (get) give
    the same result and leave the same store and files, and so do
    [update_params] (asyncSet) and the setter of [params] (set), and the
    coroutines [deserialize] and [serialize] and their blocking twins. *)
Theorem blocking_nonblocking_equivalent (s : Sigma Params) (v : option Params) :
  load_params s = params s /\
  update_params v s = params_setter v s /\
  deserialize s = _deserialize_sync s /\
  serialize s = _serialize_sync s.
Proof.
  rewrite load_params_eq, update_params_eq, deserialize_eq, serialize_eq.
  repeat split.
Qed.

(** A load of bytes that do not decode raises out of the read path: no
    clause names [UnicodeDecodeError], a [ValueError]. *)
Lemma _deserialize_sync_undecodable (s : TusUploadInfo Params) (w : World) (b : string) :
  fs w !! path s = Some (Undecodable b) ->
  faults w = [] ->
  _deserialize_sync (mkSigma s w) =
    (Raise (UnicodeDecodeError "invalid start byte"),
     mkSigma s (mkWorld (fs w) [] (log w)
                  (trace w ++ [SysStat (path s); SysOpenR (path s); SysRead (path s)]))).
Proof.
  intros Hm Hf. destruct w as [m fl lg tr]. cbn [fs faults log trace] in *. subst fl.
  rewrite _deserialize_sync_cases. cbv zeta. rewrite Hm. cbn [hd tl].
  rewrite <- !List.app_assoc. reflexivity.
Qed.

(** C5 — What the code does when the first load raises: on a store not
    yet loaded over a file whose bytes do not decode, [get()] and
    [asyncGet()] raise [UnicodeDecodeError] after the existence check, the
    open and the read; [_loaded] is not set (the store is as before), and
    the next [get()] goes to the filesystem again, with the same three
    calls, and raises again. *)
Theorem raising_load_is_retried (s : TusUploadInfo Params) (w : World) (b : string) :
  _loaded s = false ->
  fs w !! path s = Some (Undecodable b) ->
  faults w = [] ->
  exists w1 w2,
    params (mkSigma s w) =
      (Raise (UnicodeDecodeError "invalid start byte"), mkSigma s w1) /\
    load_params (mkSigma s w) =
      (Raise (UnicodeDecodeError "invalid start byte"), mkSigma s w1) /\
    trace w1 = (trace w ++ [SysStat (path s); SysOpenR (path s); SysRead (path s)])%list /\
    params (mkSigma s w1) =
      (Raise (UnicodeDecodeError "invalid start byte"), mkSigma s w2) /\
    trace w2 = (trace w1 ++ [SysStat (path s); SysOpenR (path s); SysRead (path s)])%list.
Proof.
  intros Hl Hm Hf. rewrite load_params_eq.
  eexists _, _. rewrite !params_unfold, Hl.
  rewrite (_deserialize_sync_undecodable s w b Hm Hf).
  rewrite (_deserialize_sync_undecodable s
             (mkWorld (fs w) [] (log w)
                (trace w ++ [SysStat (path s); SysOpenR (path s); SysRead (path s)]))
             b Hm eq_refl).
  repeat split.
Qed.

(** ** The flag [_loaded] *)

Lemma _serialize_sync_self (s : TusUploadInfo Params) (w : World) :
  self (snd (_serialize_sync (mkSigma s w))) = s.
Proof.
  destruct (_serialize_sync_outcome s w) as (w' & E & _). rewrite E. reflexivity.
Qed.

Lemma perform_loaded (c : call Params) (s : Sigma Params) :
  _loaded (self s) = true -> _loaded (self (perform c s)) = true.
Proof.
  destruct s as [s w]. cbn [self]. intros Hl.
  destruct c; cbn [perform];
    rewrite ?load_params_eq, ?update_params_eq, ?serialize_eq, ?deserialize_eq.
  - rewrite params_unfold, Hl. exact Hl.
  - rewrite params_setter_unfold, _serialize_sync_self. reflexivity.
  - rewrite params_unfold, Hl. exact Hl.
  - rewrite params_setter_unfold, _serialize_sync_self. reflexivity.
  - exact Hl.
  - rewrite _serialize_sync_self. exact Hl.
  - rewrite _serialize_sync_self. exact Hl.
  - destruct (_deserialize_sync_frame s w) as (E & _). rewrite E. exact Hl.
  - destruct (_deserialize_sync_frame s w) as (E & _). rewrite E. exact Hl.
  - exact Hl.
Qed.

Lemma accessor_loaded (c : call Params) (s : Sigma Params) :
  is_accessor c = true -> _loaded (self s) = true -> perform c s = s.
Proof.
  destruct s as [s w]. cbn [self]. intros Ha Hl.
  destruct c; try discriminate Ha; cbn [perform]; rewrite ?load_params_eq.
  all: rewrite params_unfold, Hl; reflexivity.
Qed.

Lemma accessor_loads_when_loaded (cs : list (call Params)) (s : Sigma Params) :
  _loaded (self s) = true -> accessor_loads cs s = 0.
Proof.
  revert s. induction cs as [|c cs IH]; intros s Hl; [reflexivity|].
  cbn [accessor_loads]. rewrite (IH _ (perform_loaded c s Hl)).
  destruct (is_accessor c) eqn:Ha; [|reflexivity].
  rewrite (accessor_loaded c s Ha Hl), Nat.eqb_refl. reflexivity.
Qed.

(** An accessor call that returns leaves the store loaded. *)
Lemma params_returns_loaded (s : Sigma Params) (v : option Params) (s1 : Sigma Params) :
  params s = (Ret v, s1) ->
  _loaded (self s1) = true /\ v = _params (self s1).
Proof.
  destruct s as [s w]. rewrite params_unfold. destruct (_loaded s) eqn:Hl.
  - intros [= <- <-]. auto.
  - destruct (_deserialize_sync (mkSigma s w)) as [[x|e] s2]; [|discriminate].
    intros [= <- <-]. auto.
Qed.

(** On a file whose bytes do not decode, every [get()] reads again. *)
Lemma accessor_loads_undecodable (n : nat) (s : TusUploadInfo Params) (w : World) (b : string) :
  _loaded s = false ->
  fs w !! path s = Some (Undecodable b) ->
  faults w = [] ->
  accessor_loads (repeat CallGet n) (mkSigma s w) = n.
Proof.
  intros Hl. revert w. induction n as [|n IH]; intros w Hm Hf; [reflexivity|].
  cbn [repeat accessor_loads perform is_accessor andb].
  rewrite params_unfold, Hl, (_deserialize_sync_undecodable s w b Hm Hf).
  cbn [snd world trace]. rewrite IH; [|exact Hm|reflexivity].
  rewrite length_app. cbn [length].
  destruct (Nat.eqb_spec (length (trace w) + 3) (length (trace w))); [lia|].
  reflexivity.
Qed.

(** C10 — The flag [_loaded] is monotone: no call on the store, nor a
    change of the files from outside, resets it once it is true.  The
    accessor path still reads the disk more than once when a load raises:
    on a store not yet loaded over a file whose bytes do not decode, each
    of [n] calls of [get()] goes to the filesystem. *)
Theorem loaded_monotone_load_retried :
  (forall (c : call Params) (s : Sigma Params),
     _loaded (self s) = true -> _loaded (self (perform c s)) = true) /\
  (forall (n : nat) (s : TusUploadInfo Params) (w : World) (b : string),
     _loaded s = false ->
     fs w !! path s = Some (Undecodable b) ->
     faults w = [] ->
     accessor_loads (repeat CallGet n) (mkSigma s w) = n).
Proof.
  split; [exact perform_loaded | exact accessor_loads_undecodable].
Qed.


(** ** The write path *)

(** C4 — Failed-set window: when a step of the persist fails (the rename
    or any step before it), [set(v)] and [asyncSet(v)] raise that failure,
    the file at the canonical path is what it was (absent if it was
    absent), and the cache has advanced: [_params] is [v] and [_loaded] is
    true. *)
Theorem failed_set_window
    (s : TusUploadInfo Params) (w : World) (v : option Params) (e : exn) :
  first_failure (json_dumps v) (faults w) = Some e ->
  exists w',
    params_setter v (mkSigma s w) = (Raise e, mkSigma (mkInfo v true (file s)) w') /\
    update_params v (mkSigma s w) = (Raise e, mkSigma (mkInfo v true (file s)) w') /\
    fs w' !! path s = fs w !! path s.
Proof.
  intros Hf. rewrite update_params_eq, params_setter_unfold.
  destruct (_serialize_sync_outcome (mkInfo v true (file s)) w) as (w' & E & _ & H).
  cbn [_params] in E, H. rewrite Hf in E, H. destruct H as [Hp _].
  exists w'. repeat split; [exact E | exact E | exact Hp].
Qed.

(** C3 — What the code does when the first failing step of the persist
    raises a class neither [except] clause names (the encoder's [default]
    hook raising [AttributeError], say): [_serialize_sync] and [serialize]
    raise it as it is, and none of the cleanup the two clauses perform
    happens: nothing is logged, no removal of the temp file is attempted
    (the trace ends at its opening), and the temp file is left behind,
    empty. *)
Theorem unhandled_persist_failure_skips_cleanup
    (s : TusUploadInfo Params) (w : World) (e : exn) :
  first_failure (json_dumps (_params s)) (faults w) = Some e ->
  write_handled e = false ->
  exists w',
    _serialize_sync (mkSigma s w) = (Raise e, mkSigma s w') /\
    serialize (mkSigma s w) = (Raise e, mkSigma s w') /\
    log w' = log w /\
    fs w' !! (path s +:+ ".tmp") = Some (Text "") /\
    trace w' = (trace w ++ [SysOpenW (path s +:+ ".tmp")])%list.
Proof.
  intros Hf He. rewrite serialize_eq.
  destruct (_serialize_sync_outcome s w) as (w' & E & _ & H).
  rewrite Hf in E, H. rewrite He in H. destruct H as (_ & Hl & Ht & Htr).
  exists w'. repeat split; assumption.
Qed.

(** X14 — Write-path failure handling for the classes the clauses name:
    when the first failing step of the persist raises an [OSError], a
    [TypeError] or a [ValueError], both [_serialize_sync] and [serialize]
    log it as an error, try to remove the temp file, and raise that same
    exception: either the temp file is gone, or the failure of the cleanup
    is logged as a warning and not raised. *)
Theorem persist_failure_cleanup (s : TusUploadInfo Params) (w : World) (e : exn) :
  first_failure (json_dumps (_params s)) (faults w) = Some e ->
  write_handled e = true ->
  exists w',
    _serialize_sync (mkSigma s w) = (Raise e, mkSigma s w') /\
    serialize (mkSigma s w) = (Raise e, mkSigma s w') /\
    ((log w' = (log w ++ [write_error (path s) e])%list /\
      fs w' !! (path s +:+ ".tmp") = None) \/
     (exists ce,
        log w' = (log w ++ [write_error (path s) e;
                            LogEntry WARNING (CleanupFailed (path s +:+ ".tmp") ce)])%list)).
Proof.
  intros Hf He. rewrite serialize_eq.
  destruct (_serialize_sync_outcome s w) as (w' & E & _ & H).
  rewrite Hf in E, H. rewrite He in H. destruct H as [_ H].
  exists w'. repeat split; [exact E | exact E | exact H].
Qed.

(** A [set] that returns has written the encoding of its value. *)
Lemma params_setter_returns
    (s : TusUploadInfo Params) (w : World) (v : option Params) (s1 : Sigma Params) :
  params_setter v (mkSigma s w) = (Ret tt, s1) ->
  self s1 = mkInfo v true (file s) /\
  exists body, json_dumps v = Ret body /\ fs (world s1) !! path s = Some (Text body).
Proof.
  rewrite params_setter_unfold.
  destruct (_serialize_sync_outcome (mkInfo v true (file s)) w) as (w' & E & _ & H).
  cbn [_params] in E, H. rewrite E.
  destruct (first_failure (json_dumps v) (faults w)); cbn [outcome]; [discriminate|].
  intros [= <-]. cbn [self world]. split; [reflexivity|].
  destruct H as ((body & Hd & Hb) & _).
  exists body. split; [exact Hd | exact Hb].
Qed.

(** ** Construction *)

(** C7 — Create-on-construct: constructing a store with a record [R]
    (one that is true as a condition) when no file exists at the derived
    path leaves [_params = R] and [_loaded] true; when no step of the
    persist fails the constructor returns and the file exists and holds
    the encoding of [R]; a failing step is raised by the constructor. *)
Theorem create_on_construct (f : TusUploadFile) (R : Params) (w : World) :
  Params_bool R = true ->
  fs w !! path_of_file f = None ->
  exists w',
    __init__ f (Some R) w =
      (outcome (first_failure (json_dumps_default R) (faults w)),
       mkSigma (mkInfo (Some R) true f) w') /\
    match first_failure (json_dumps_default R) (faults w) with
    | None =>
        exists body, json_dumps_default R = Ret body /\
                     fs w' !! path_of_file f = Some (Text body)
    | Some _ => fs w' !! path_of_file f = None
    end.
Proof.
  intros Hb Hm. unfold __init__. cbn [params_truthy]. rewrite Hb.
  destruct w as [m fl lg tr]. cbn [fs faults] in *.
  unfold exists_ at 1. run.
  change (path (mkInfo (Some R) true f)) with (path_of_file f). rewrite Hm. run.
  destruct (_serialize_sync_outcome (mkInfo (Some R) true f)
              (mkWorld m fl lg (tr ++ [SysStat (path_of_file f)])))
    as (w' & E & _ & H).
  cbn [_params json_dumps faults fs] in E, H.
  change (path (mkInfo (Some R) true f)) with (path_of_file f) in H.
  exists w'. split; [exact E|].
  destruct (first_failure (json_dumps_default R) fl).
  - destruct H as [Hp _]. exact (eq_trans Hp Hm).
  - destruct H as ((body & Hd & Hs) & _). exists body. split; [exact Hd | exact Hs].
Qed.

(** C9 — Constructing a store with an initial record when the file
    already exists writes nothing: the constructor returns with the record
    cached, the files, the log and the fault schedule as they were, and at
    most the existence check in the trace; whatever the file holds stays
    there until a later [set] that returns, which writes the encoding of
    its value. *)
Theorem construct_over_existing_file
    (f : TusUploadFile) (R : Params) (w : World) (c : content) :
  fs w !! path_of_file f = Some c ->
  exists w',
    __init__ f (Some R) w = (Ret tt, mkSigma (mkInfo (Some R) true f) w') /\
    fs w' = fs w /\ faults w' = faults w /\ log w' = log w /\
    (trace w' = trace w \/ trace w' = (trace w ++ [SysStat (path_of_file f)])%list) /\
    forall v w2 s2,
      params_setter v (mkSigma (mkInfo (Some R) true f) w2) = (Ret tt, s2) ->
      self s2 = mkInfo v true f /\
      exists body, json_dumps v = Ret body /\
                   fs (world s2) !! path_of_file f = Some (Text body).
Proof.
  intros Hm. unfold __init__. cbn [params_truthy].
  assert (Hset : forall v w2 s2,
      params_setter v (mkSigma (mkInfo (Some R) true f) w2) = (Ret tt, s2) ->
      self s2 = mkInfo v true f /\
      exists body, json_dumps v = Ret body /\
                   fs (world s2) !! path_of_file f = Some (Text body)).
  { intros v w2 s2 E. exact (params_setter_returns _ _ _ _ E). }
  destruct w as [m fl lg tr]. cbn [fs faults log trace] in *.
  destruct (Params_bool R).
  - unfold exists_. run.
    change (path (mkInfo (Some R) true f)) with (path_of_file f). rewrite Hm. run.
    eexists. split; [reflexivity|]. cbn [fs faults log trace]. auto 10.
  - eexists. run. split; [reflexivity|]. cbn [fs faults log trace]. auto 10.
Qed.

(** ** The read path *)

(** C1 — Round trip: after [set(R)] returned on one store, for a valid
    record [R] (it encodes, and its text decodes back to it), a store
    constructed afresh for the same path, with no fault on its read,
    returns [R] from [get()] and from [asyncGet()]. *)
Theorem set_then_fresh_get_roundtrip
    (s : TusUploadInfo Params) (w : World) (R : Params)
    (f2 : TusUploadFile) (s1 : Sigma Params) :
  roundtrips R ->
  path_of_file f2 = path s ->
  params_setter (Some R) (mkSigma s w) = (Ret tt, s1) ->
  fault_at 0 (faults (world s1)) = None ->
  fault_at 1 (faults (world s1)) = None ->
  __init__ f2 None (world s1) = (Ret tt, mkSigma (fresh f2) (world s1)) /\
  exists s2,
    params (mkSigma (fresh f2) (world s1)) = (Ret (Some R), s2) /\
    load_params (mkSigma (fresh f2) (world s1)) = (Ret (Some R), s2).
Proof.
  intros (body & kw & Hd & Hne & Hl & Ht & Hk) Hpath Hset F0 F1.
  split; [reflexivity|].
  destruct (params_setter_returns _ _ _ _ Hset) as (_ & body' & Hd' & Hfs).
  cbn [json_dumps] in Hd'. rewrite Hd in Hd'. injection Hd' as <-.
  rewrite load_params_eq, params_unfold. unfold fresh. cbn [_loaded].
  destruct (world s1) as [m fl lg tr]. cbn [faults fs] in *.
  rewrite _deserialize_sync_cases. cbv zeta.
  change (path (mkInfo None false f2)) with (path_of_file f2).
  rewrite Hpath, Hfs, (fault_at_0 _ F0), (fault_at_1 _ F1), Hne, Hl, Ht.
  cbn [call_TusUploadParams]. rewrite Hk. cbn [self _params].
  eexists. split; reflexivity.
Qed.

(** C2 (amended) — The read path degrades instead of raising: on a store
    constructed without a record, when the file is absent, cannot be
    opened or read for an [OSError], is blank, holds text that
    [json.loads] rejects with [JSONDecodeError], or holds JSON that is
    true as a condition but that the unpacking or the constructor rejects
    with [KeyError] or [TypeError], [get()] and [asyncGet()] return [None]
    with [_loaded] set and the files untouched; they log one record naming
    the cause in every case but the absent file, where they log
    nothing. *)
Theorem read_path_degrades (f : TusUploadFile) (w : World) (entries : list log_entry) :
  degraded (path_of_file f) w entries ->
  exists w',
    params (mkSigma (fresh f) w) = (Ret None, mkSigma (mkInfo None true f) w') /\
    load_params (mkSigma (fresh f) w) = (Ret None, mkSigma (mkInfo None true f) w') /\
    log w' = (log w ++ entries)%list /\
    fs w' = fs w.
Proof.
  intros Hd. rewrite load_params_eq, params_unfold. unfold fresh. cbn [_loaded].
  destruct w as [m fl lg tr]. rewrite _deserialize_sync_cases. cbv zeta.
  change (path (mkInfo None false f)) with (path_of_file f).
  cbn [_loaded file].
  inversion Hd as [Hm | c e Hm H0 | c e Hm H0 H1 | c Hm H0 H1 He
                  | c e Hm H0 H1 He Hj Hi | c j e Hm H0 H1 He Hj Ht Hc Hh];
    subst; cbn [fs faults] in *; rewrite Hm.
  - eexists. cbn. rewrite app_nil_r. auto.
  - apply fault_at_0_Some in H0 as (code & n & -> & ->).
    eexists. cbn. auto.
  - rewrite (fault_at_0 _ H0).
    apply fault_at_1_Some in H1 as (code & n & -> & ->).
    eexists. cbn. auto.
  - rewrite (fault_at_0 _ H0), (fault_at_1 _ H1), He.
    eexists. cbn. auto.
  - rewrite (fault_at_0 _ H0), (fault_at_1 _ H1), He, Hj.
    destruct e; try discriminate Hi. eexists. cbn. auto.
  - rewrite (fault_at_0 _ H0), (fault_at_1 _ H1), He, Hj, Ht, Hc.
    destruct e; try discriminate Hh; eexists; cbn; auto.
Qed.


(** The empty-file branch returns [None] and goes no further: the cache
    keeps whatever it held. *)
Lemma _deserialize_sync_empty (s : TusUploadInfo Params) (w : World) (c : string) :
  fs w !! path s = Some (Text c) ->
  fault_at 0 (faults w) = None ->
  fault_at 1 (faults w) = None ->
  String.eqb (strip c) "" = true ->
  _deserialize_sync (mkSigma s w) =
    (Ret None,
     mkSigma s (mkWorld (fs w) (tl (tl (faults w)))
                  (log w ++ [LogEntry WARNING (InfoFileEmpty (path s))])
                  (trace w ++ [SysStat (path s); SysOpenR (path s); SysRead (path s)]))).
Proof.
  intros Hm H0 H1 He. destruct w as [m fl lg tr]. cbn [fs faults log trace] in *.
  rewrite _deserialize_sync_cases. cbv zeta.
  rewrite Hm, (fault_at_0 _ H0), (fault_at_1 _ H1), He.
  unfold emit. cbn [fs faults log trace].
  rewrite <- !List.app_assoc. reflexivity.
Qed.

(** C8 — What the code does on an empty file: [deserialize] and
    [_deserialize_sync] log the warning and return [None], but the cached
    record is not reset: [_params] is what it was before the call, and on
    a store not yet marked loaded [get()] then returns that record. *)
Theorem empty_file_keeps_cached_record
    (s : TusUploadInfo Params) (w : World) (c : string) :
  fs w !! path s = Some (Text c) ->
  fault_at 0 (faults w) = None ->
  fault_at 1 (faults w) = None ->
  String.eqb (strip c) "" = true ->
  exists w',
    deserialize (mkSigma s w) = (Ret None, mkSigma s w') /\
    _deserialize_sync (mkSigma s w) = (Ret None, mkSigma s w') /\
    log w' = (log w ++ [LogEntry WARNING (InfoFileEmpty (path s))])%list /\
    (_loaded s = false ->
     params (mkSigma s w) =
       (Ret (_params s), mkSigma (mkInfo (_params s) true (file s)) w')).
Proof.
  intros Hm H0 H1 He. rewrite deserialize_eq.
  eexists. rewrite (_deserialize_sync_empty s w c Hm H0 H1 He).
  repeat split.
  intros Hl. rewrite params_unfold, Hl, (_deserialize_sync_empty s w c Hm H0 H1 He).
  reflexivity.
Qed.


(** ** The system calls of a persist *)

(** Every call goes to the temp path or is the rename onto the canonical
    path; a run without failure issues exactly the five calls; a rename is
    only ever issued after open, write, flush and fsync. *)
Lemma _serialize_sync_calls (s : TusUploadInfo Params) (w : World) :
  let p := path s in
  let t := p +:+ ".tmp" in
  let failure := first_failure (json_dumps (_params s)) (faults w) in
  exists w' evs,
    _serialize_sync (mkSigma s w) = (outcome failure, mkSigma s w') /\
    trace w' = (trace w ++ evs)%list /\
    forallb (persist_call p t) evs = true /\
    (failure = None -> evs = persist_calls p t) /\
    (existsb is_rename evs = true ->
     exists rest, evs = (persist_calls p t ++ rest)%list).
Proof.
  intros p t failure. subst failure t p.
  unfold _serialize_sync.
  destruct w as [m fl lg tr]. run.
  pose proof (temp_path_fresh (path s)) as Hne.
  generalize dependent (path s). intros p Hne.
  generalize dependent (p +:+ ".tmp"). intros t Hne.
  unfold first_failure, fault_at, or_else, persist_calls.
  crunch.
  all: cbn [nth]; eexists _, _; (split; [reflexivity|]);
       cbn [fs log faults trace]; rewrite <- ?List.app_assoc;
       (split; [reflexivity|]);
       cbn [app forallb existsb persist_call is_rename orb andb];
       rewrite ?String.eqb_refl; cbn [andb].
  all: repeat split; try discriminate; try reflexivity.
  all: intros _; eexists; cbn [app]; reflexivity.
Qed.


(** X1 — A persist with no failing step: [set(v)] and [asyncSet(v)]
    return, the canonical file holds exactly the encoding of [v], no temp
    file is left (a stale one from an earlier crash is consumed), every
    other file is as before, nothing is logged, and the system calls are
    open, write, flush, fsync on the temp file and the rename, in this
    order. *)
Theorem successful_persist (s : TusUploadInfo Params) (w : World) (v : option Params) :
  first_failure (json_dumps v) (faults w) = None ->
  exists body w',
    json_dumps v = Ret body /\
    params_setter v (mkSigma s w) = (Ret tt, mkSigma (mkInfo v true (file s)) w') /\
    update_params v (mkSigma s w) = (Ret tt, mkSigma (mkInfo v true (file s)) w') /\
    fs w' !! path s = Some (Text body) /\
    fs w' !! (path s +:+ ".tmp") = None /\
    (forall q, q <> path s -> q <> path s +:+ ".tmp" -> fs w' !! q = fs w !! q) /\
    log w' = log w /\
    trace w' = (trace w ++ persist_calls (path s) (path s +:+ ".tmp"))%list.
Proof.
  intros Hf. rewrite update_params_eq, params_setter_unfold.
  destruct (_serialize_sync_outcome (mkInfo v true (file s)) w) as (w' & E & Hfr & H).
  destruct (_serialize_sync_calls (mkInfo v true (file s)) w)
    as (w2 & evs & E2 & Htr & _ & Hev & _).
  cbn [_params] in E, H, E2, Hev. rewrite Hf in E, H, E2, Hev.
  rewrite E in E2. injection E2 as <-.
  destruct H as ((body & Hd & Hb) & Ht & Hl).
  exists body, w'.
  rewrite (Hev eq_refl) in Htr.
  repeat split; assumption.
Qed.

(** X2 — The write discipline, on every outcome of a persist: each system
    call it issues is on the temp file, but the rename of the temp file
    onto the canonical path; the rename is issued only after open, write,
    flush and fsync went through; and no file other than these two is
    touched. *)
Theorem persist_write_discipline (s : TusUploadInfo Params) (w : World) :
  exists w' evs,
    _serialize_sync (mkSigma s w) =
      (outcome (first_failure (json_dumps (_params s)) (faults w)), mkSigma s w') /\
    serialize (mkSigma s w) =
      (outcome (first_failure (json_dumps (_params s)) (faults w)), mkSigma s w') /\
    trace w' = (trace w ++ evs)%list /\
    forallb (persist_call (path s) (path s +:+ ".tmp")) evs = true /\
    (existsb is_rename evs = true ->
     exists rest, evs = (persist_calls (path s) (path s +:+ ".tmp") ++ rest)%list) /\
    (forall q, q <> path s -> q <> path s +:+ ".tmp" -> fs w' !! q = fs w !! q).
Proof.
  rewrite serialize_eq.
  destruct (_serialize_sync_outcome s w) as (w' & E & Hfr & _).
  destruct (_serialize_sync_calls s w) as (w2 & evs & E2 & Htr & Hall & _ & Hren).
  rewrite E in E2. injection E2 as <-.
  exists w', evs. repeat split; assumption.
Qed.

(** ** Paths *)

Lemma append_cons (x : ascii) (a b : string) : String x a +:+ b = String x (a +:+ b).
Proof. reflexivity. Qed.

Lemma append_assoc (a b c : string) : (a +:+ b) +:+ c = a +:+ (b +:+ c).
Proof.
  induction a as [|x a IH]; [reflexivity|].
  rewrite !append_cons, IH. reflexivity.
Qed.

Lemma append_nil_r (a : string) : a +:+ "" = a.
Proof.
  induction a as [|x a IH]; [reflexivity|]. rewrite append_cons, IH. reflexivity.
Qed.

Lemma append_last_inj (a b : string) (c d : ascii) :
  a +:+ String c "" = b +:+ String d "" -> a = b /\ c = d.
Proof.
  revert b. induction a as [|x a IH]; intros [|y b];
    rewrite ?append_cons; change ("" +:+ ?s) with s; intros [= ].
  - auto.
  - destruct b; discriminate.
  - destruct a; discriminate.
  - subst. destruct (IH b) as [-> ->]; auto.
Qed.

Lemma append_inj_l (a b c : string) : a +:+ b = a +:+ c -> b = c.
Proof.
  induction a as [|x a IH]; [auto|]. rewrite !append_cons. intros [= ]; auto.
Qed.

Lemma append_inj_r (a b c : string) : a +:+ c = b +:+ c -> a = b.
Proof.
  revert a b. induction c as [|x c IH]; intros a b.
  - rewrite !append_nil_r. auto.
  - change (String x c) with (String x "" +:+ c).
    rewrite <- !append_assoc. intros H%IH.
    apply append_last_inj in H as [-> _]. reflexivity.
Qed.

Lemma os_path_join_suffix (a b : string) : exists x, os_path_join a b = x +:+ b.
Proof.
  unfold os_path_join. destruct (startswith_sep b).
  - exists "". reflexivity.
  - destruct (String.eqb a "" || endswith_sep a).
    + exists a. reflexivity.
    + exists (a +:+ "/"). apply eq_sym, append_assoc.
Qed.

(** The temp file of a store is the info file of no store. *)
Lemma temp_never_canonical (s : TusUploadInfo Params) (f2 : TusUploadFile) :
  path s +:+ ".tmp" <> path_of_file f2.
Proof.
  unfold path_of_file.
  destruct (os_path_join_suffix (files_dir (options f2)) (uid f2 +:+ ".info")) as [x ->].
  change ".tmp" with (".tm" +:+ "p"). change ".info" with (".inf" +:+ "o").
  rewrite <- !append_assoc. intros H.
  apply append_last_inj in H as [_ H]. discriminate H.
Qed.

Lemma params_world (s : Sigma Params) :
  fs (world (snd (params s))) = fs (world s).
Proof.
  destruct s as [s w]. rewrite params_unfold. destruct (_loaded s); [reflexivity|].
  destruct (_deserialize_sync_frame s w) as (_ & _ & Hfs).
  destruct (_deserialize_sync (mkSigma s w)) as [[v|e] s1]; exact Hfs.
Qed.

(** A call on a store touches no file but its canonical and temp file. *)
Lemma perform_frame (c : call Params) (s : Sigma Params) (q : string) :
  is_store_call c = true ->
  q <> path (self s) -> q <> path (self s) +:+ ".tmp" ->
  fs (world (perform c s)) !! q = fs (world s) !! q.
Proof.
  intros Hc Hp Ht.
  destruct c; try discriminate Hc; cbn [perform];
    rewrite ?load_params_eq, ?update_params_eq, ?serialize_eq, ?deserialize_eq.
  - rewrite params_world. reflexivity.
  - destruct s as [s w]. rewrite params_setter_unfold.
    destruct (_serialize_sync_outcome (mkInfo value true (file s)) w) as (w' & E & Hfr & _).
    rewrite E. exact (Hfr q Hp Ht).
  - rewrite params_world. reflexivity.
  - destruct s as [s w]. rewrite params_setter_unfold.
    destruct (_serialize_sync_outcome (mkInfo value true (file s)) w) as (w' & E & Hfr & _).
    rewrite E. exact (Hfr q Hp Ht).
  - reflexivity.
  - destruct s as [s w].
    destruct (_serialize_sync_outcome s w) as (w' & E & Hfr & _).
    rewrite E. exact (Hfr q Hp Ht).
  - destruct s as [s w].
    destruct (_serialize_sync_outcome s w) as (w' & E & Hfr & _).
    rewrite E. exact (Hfr q Hp Ht).
  - destruct s as [s w]. destruct (_deserialize_sync_frame s w) as (_ & _ & ->). reflexivity.
  - destruct s as [s w]. destruct (_deserialize_sync_frame s w) as (_ & _ & ->). reflexivity.
Qed.

(** X3 — Uploads do not interfere: no call on a store (accessors, setters,
    serialize and deserialize in both modes, exists), whether it returns
    or raises, changes the info file of an upload with a different path;
    in particular the temp file of one store is never the info file of
    another. *)
Theorem other_info_file_untouched
    (c : call Params) (s : Sigma Params) (f2 : TusUploadFile) :
  is_store_call c = true ->
  path_of_file f2 <> path (self s) ->
  fs (world (perform c s)) !! path_of_file f2 = fs (world s) !! path_of_file f2.
Proof.
  intros Hc Hp. apply perform_frame; [exact Hc | exact Hp |].
  intros H. exact (temp_never_canonical (self s) f2 (eq_sym H)).
Qed.

(** X4 — One file per upload: in one storage directory, two uploads whose
    identifiers do not start with a slash have the same info path only if
    they have the same identifier. *)
Theorem path_injective (f1 f2 : TusUploadFile) :
  files_dir (options f1) = files_dir (options f2) ->
  startswith_sep (uid f1) = false ->
  startswith_sep (uid f2) = false ->
  path_of_file f1 = path_of_file f2 ->
  uid f1 = uid f2.
Proof.
  unfold path_of_file, os_path_join. intros <- H1 H2.
  assert (R : forall u, startswith_sep u = false -> startswith_sep (u +:+ ".info") = false).
  { intros [|x u]; [reflexivity | rewrite append_cons; auto]. }
  rewrite (R _ H1), (R _ H2).
  destruct (String.eqb _ "" || endswith_sep _).
  - intros H%append_inj_l. exact (append_inj_r _ _ _ H).
  - intros H%append_inj_l%append_inj_l. exact (append_inj_r _ _ _ H).
Qed.

(** X5 — Read your writes: after [set(v)] or [asyncSet(v)] on a store,
    whether the persist went through or raised, [get()] and [asyncGet()]
    on that store return [v] in whatever world, without a system call. *)
Theorem get_after_set (s : Sigma Params) (v : option Params) (w2 : World) :
  self (snd (params_setter v s)) = mkInfo v true (file (self s)) /\
  self (snd (update_params v s)) = mkInfo v true (file (self s)) /\
  params (mkSigma (self (snd (params_setter v s))) w2) =
    (Ret v, mkSigma (self (snd (params_setter v s))) w2) /\
  load_params (mkSigma (self (snd (params_setter v s))) w2) =
    (Ret v, mkSigma (self (snd (params_setter v s))) w2).
Proof.
  rewrite update_params_eq, load_params_eq. destruct s as [s w].
  rewrite params_setter_unfold, _serialize_sync_self. cbn [self].
  rewrite params_unfold. cbn [_loaded _params]. auto.
Qed.


(** ** More on the read path *)

(** The system calls and log records of a load. *)
Lemma _deserialize_sync_effects (s : TusUploadInfo Params) (w : World) :
  exists evs l,
    trace (world (snd (_deserialize_sync (mkSigma s w)))) = (trace w ++ evs)%list /\
    load_calls (path s) evs /\
    log (world (snd (_deserialize_sync (mkSigma s w)))) = (log w ++ l)%list /\
    length l <= 1.
Proof.
  destruct w as [m fl lg tr]. rewrite _deserialize_sync_cases. cbv zeta.
  unfold load_calls, emit.
  repeat match goal with
         | |- context [match ?x with _ => _ end] => destruct x
         end;
    cbn [snd world trace log fs faults]; rewrite <- ?List.app_assoc; cbn [app].
  all: eexists _, _; (split; [reflexivity|]);
       (split; [first [left; reflexivity | right; left; reflexivity
                      | right; right; reflexivity]|]);
       (split; [first [reflexivity | symmetry; apply app_nil_r] | cbn; lia]).
Qed.

(** X6 — A document that is JSON but false as a condition ([null], an
    empty object or list, zero, an empty string, [false]) loads as [None]
    without any log record: [deserialize] and [_deserialize_sync] clear
    the cache and return [None], and so do [get()] and [asyncGet()] on a
    store not yet loaded. *)
Theorem falsy_document_loads_none
    (s : TusUploadInfo Params) (w : World) (c : string) (j : json) :
  fs w !! path s = Some (Text c) ->
  fault_at 0 (faults w) = None ->
  fault_at 1 (faults w) = None ->
  String.eqb (strip c) "" = false ->
  json_loads (strip c) = Ret j ->
  truthy j = false ->
  exists w',
    _deserialize_sync (mkSigma s w) =
      (Ret None, mkSigma (mkInfo None (_loaded s) (file s)) w') /\
    deserialize (mkSigma s w) =
      (Ret None, mkSigma (mkInfo None (_loaded s) (file s)) w') /\
    log w' = log w /\ fs w' = fs w /\
    (_loaded s = false ->
     params (mkSigma s w) = (Ret None, mkSigma (mkInfo None true (file s)) w') /\
     load_params (mkSigma s w) = (Ret None, mkSigma (mkInfo None true (file s)) w')).
Proof.
  intros Hm H0 H1 He Hj Ht. rewrite deserialize_eq, load_params_eq.
  assert (E : _deserialize_sync (mkSigma s w) =
              (Ret None,
               mkSigma (mkInfo None (_loaded s) (file s))
                 (mkWorld (fs w) (tl (tl (faults w))) (log w)
                    (((trace w ++ [SysStat (path s)]) ++ [SysOpenR (path s)])
                     ++ [SysRead (path s)])))).
  { destruct w as [m fl lg tr]. cbn [fs faults log trace] in *.
    rewrite _deserialize_sync_cases. cbv zeta.
    rewrite Hm, (fault_at_0 _ H0), (fault_at_1 _ H1), He, Hj, Ht. reflexivity. }
  eexists. rewrite E. do 4 (split; [reflexivity|]).
  intros Hl. rewrite params_unfold, Hl, E. split; reflexivity.
Qed.

(** X7 — [set(None)] writes the four characters of JSON null, and a
    store constructed afresh for that path then loads [None] without a
    log record (the JSON decoder reading null as [None]). *)
Theorem set_none_roundtrip
    (s : TusUploadInfo Params) (w : World) (s1 : Sigma Params) (f2 : TusUploadFile) :
  params_setter None (mkSigma s w) = (Ret tt, s1) ->
  json_loads "null" = Ret JNull ->
  path_of_file f2 = path s ->
  fault_at 0 (faults (world s1)) = None ->
  fault_at 1 (faults (world s1)) = None ->
  fs (world s1) !! path s = Some (Text "null") /\
  exists w',
    params (mkSigma (fresh f2) (world s1)) =
      (Ret None, mkSigma (mkInfo None true f2) w') /\
    log w' = log (world s1).
Proof.
  intros Hset Hj Hp H0 H1.
  destruct (params_setter_returns _ _ _ _ Hset) as (_ & body & Hd & Hfs).
  cbn [json_dumps] in Hd. injection Hd as <-.
  split; [exact Hfs|].
  rewrite params_unfold. unfold fresh. cbn [_loaded].
  destruct (world s1) as [m fl lg tr]. cbn [fs faults log] in *.
  rewrite _deserialize_sync_cases. cbv zeta.
  change (path (mkInfo None false f2)) with (path_of_file f2).
  rewrite Hp, Hfs, (fault_at_0 _ H0), (fault_at_1 _ H1).
  change (strip "null") with "null". cbn [String.eqb Ascii.eqb Bool.eqb]. rewrite Hj.
  cbn [truthy]. eexists. split; reflexivity.
Qed.

(** X8 — A document that is JSON and true as a condition but no object
    (a list, a number, a string, [true]) cannot be unpacked into keyword
    arguments: whatever the constructor is, the load logs an
    invalid-data-structure error carrying the [TypeError], clears the
    cache and returns [None]. *)
Theorem non_mapping_document_rejected
    (s : TusUploadInfo Params) (w : World) (c : string) (j : json) :
  fs w !! path s = Some (Text c) ->
  fault_at 0 (faults w) = None ->
  fault_at 1 (faults w) = None ->
  String.eqb (strip c) "" = false ->
  json_loads (strip c) = Ret j ->
  truthy j = true ->
  is_mapping j = false ->
  exists w',
    _deserialize_sync (mkSigma s w) =
      (Ret None, mkSigma (mkInfo None (_loaded s) (file s)) w') /\
    deserialize (mkSigma s w) =
      (Ret None, mkSigma (mkInfo None (_loaded s) (file s)) w') /\
    log w' =
      (log w ++ [LogEntry ERROR
                   (InvalidDataStructure (path s)
                      (TypeError "argument after ** must be a mapping"))])%list /\
    (_loaded s = false ->
     params (mkSigma s w) = (Ret None, mkSigma (mkInfo None true (file s)) w')).
Proof.
  intros Hm H0 H1 He Hj Ht Hmap. rewrite deserialize_eq.
  assert (Hc : call_TusUploadParams j =
               Raise (TypeError "argument after ** must be a mapping")).
  { destruct j; try discriminate Hmap; reflexivity. }
  assert (E : _deserialize_sync (mkSigma s w) =
              (Ret None,
               mkSigma (mkInfo None (_loaded s) (file s))
                 (mkWorld (fs w) (tl (tl (faults w)))
                    (log w ++ [LogEntry ERROR
                                 (InvalidDataStructure (path s)
                                    (TypeError "argument after ** must be a mapping"))])
                    (((trace w ++ [SysStat (path s)]) ++ [SysOpenR (path s)])
                     ++ [SysRead (path s)])))).
  { destruct w as [m fl lg tr]. cbn [fs faults log trace] in *.
    rewrite _deserialize_sync_cases. cbv zeta.
    rewrite Hm, (fault_at_0 _ H0), (fault_at_1 _ H1), He, Hj, Ht, Hc. reflexivity. }
  eexists. rewrite E. do 3 (split; [reflexivity|]).
  intros Hl. rewrite params_unfold, Hl, E. reflexivity.
Qed.

(** X9 — The read path never writes: [get()], [asyncGet()],
    [deserialize], [_deserialize_sync] and [exists] leave every file as it
    is, on every store and world and whether they return or raise; a load
    issues an existence check, then at most an open for reading and a
    read, all on the canonical path, and an accessor call issues these or
    nothing. *)
Theorem read_path_never_writes (s : Sigma Params) :
  fs (world (snd (params s))) = fs (world s) /\
  fs (world (snd (load_params s))) = fs (world s) /\
  fs (world (snd (_deserialize_sync s))) = fs (world s) /\
  fs (world (snd (deserialize s))) = fs (world s) /\
  fs (world (snd (exists_ s))) = fs (world s) /\
  (exists evs,
     trace (world (snd (_deserialize_sync s))) = (trace (world s) ++ evs)%list /\
     load_calls (path (self s)) evs) /\
  (exists evs,
     trace (world (snd (params s))) = (trace (world s) ++ evs)%list /\
     (evs = [] \/ load_calls (path (self s)) evs)).
Proof.
  rewrite load_params_eq, deserialize_eq, params_world.
  destruct s as [s w]. cbn [self world].
  destruct (_deserialize_sync_frame s w) as (_ & _ & Hfs).
  destruct (_deserialize_sync_effects s w) as (evs & l & Htr & Hev & _).
  repeat split; try assumption.
  - exists evs. auto.
  - rewrite params_unfold. destruct (_loaded s).
    + exists []. rewrite app_nil_r. auto.
    + exists evs. split; [|auto].
      destruct (_deserialize_sync (mkSigma s w)) as [[v|e] s1]; exact Htr.
Qed.

(** X10 — A load sees the file only through its stripped text: two
    files that differ in leading or trailing whitespace give the same
    result, the same cache, the same log and the same system calls. *)
Theorem load_ignores_surrounding_whitespace
    (s : TusUploadInfo Params) (m1 m2 : gmap string content)
    (fl : list fault) (lg : list log_entry) (tr : list syscall) (c1 c2 : string) :
  m1 !! path s = Some (Text c1) ->
  m2 !! path s = Some (Text c2) ->
  strip c1 = strip c2 ->
  let r1 := _deserialize_sync (mkSigma s (mkWorld m1 fl lg tr)) in
  let r2 := _deserialize_sync (mkSigma s (mkWorld m2 fl lg tr)) in
  fst r1 = fst r2 /\
  self (snd r1) = self (snd r2) /\
  log (world (snd r1)) = log (world (snd r2)) /\
  trace (world (snd r1)) = trace (world (snd r2)) /\
  fst (params (mkSigma s (mkWorld m1 fl lg tr))) =
    fst (params (mkSigma s (mkWorld m2 fl lg tr))).
Proof.
  intros H1 H2 Hs. cbv zeta. rewrite !params_unfold.
  rewrite !_deserialize_sync_cases. cbv zeta. rewrite H1, H2, Hs.
  unfold emit.
  repeat match goal with
         | |- context [match ?x with _ => _ end] => destruct x
         | |- context [if ?x then _ else _] => destruct x
         end; cbn; auto.
Qed.

(** X11 — When [get()] raises, nothing is cached: the store was not yet
    loaded, the exception is of a class no [except] clause of the read
    path names, and the call leaves the store as it was, still not loaded,
    with files and log untouched and only the existence check, the open
    and the read in the trace; the next [get()] reads again. *)
Theorem raising_get_caches_nothing
    (s : TusUploadInfo Params) (w : World) (e : exn) (s1 : Sigma Params) :
  params (mkSigma s w) = (Raise e, s1) ->
  _loaded s = false /\ read_handled e = false /\
  self s1 = s /\ fs (world s1) = fs w /\ log (world s1) = log w /\
  trace (world s1) =
    (trace w ++ [SysStat (path s); SysOpenR (path s); SysRead (path s)])%list.
Proof.
  rewrite params_unfold. destruct (_loaded s); [discriminate|].
  destruct w as [m fl lg tr]. rewrite _deserialize_sync_cases. cbv zeta.
  destruct (m !! path s) as [c|] eqn:Hm; [|discriminate].
  destruct (hd NoFault fl); [|discriminate].
  destruct (hd NoFault (tl fl)); [|discriminate].
  assert (Htr : (((tr ++ [SysStat (path s)]) ++ [SysOpenR (path s)]) ++ [SysRead (path s)])%list
                = (tr ++ [SysStat (path s); SysOpenR (path s); SysRead (path s)])%list).
  { rewrite <- !List.app_assoc. reflexivity. }
  destruct c as [c|b].
  - destruct (String.eqb (strip c) ""); [discriminate|].
    destruct (json_loads (strip c)) as [j|e'] eqn:Hj.
    + destruct (truthy j) eqn:Ht; [|discriminate].
      destruct (call_TusUploadParams j) as [R|e'] eqn:Hc; [discriminate|].
      destruct (read_handled e') eqn:Hh; [discriminate|].
      intros [= <- <-]. cbn [self world fs log trace]. auto 10.
    + destruct (read_handled e') eqn:Hh; [discriminate|].
      intros [= <- <-]. cbn [self world fs log trace]. auto 10.
  - intros [= <- <-]. cbn [self world fs log trace]. auto 10.
Qed.

(** X12 — Closing the failed-set window: when [set(v)] raises over a
    file that holds a document of record [R], the cache holds [v] while
    the file still holds [R]; a [deserialize()] on that store (its read
    not failing) then brings the cache back to [R]. *)
Theorem deserialize_after_failed_set
    (s : TusUploadInfo Params) (w : World) (v : option Params) (e : exn)
    (c : string) (R : Params) :
  fs w !! path s = Some (Text c) ->
  document_of c R ->
  first_failure (json_dumps v) (faults w) = Some e ->
  fault_at 0 (faults (world (snd (params_setter v (mkSigma s w))))) = None ->
  fault_at 1 (faults (world (snd (params_setter v (mkSigma s w))))) = None ->
  fst (params_setter v (mkSigma s w)) = Raise e /\
  _params (self (snd (params_setter v (mkSigma s w)))) = v /\
  exists s2,
    deserialize (snd (params_setter v (mkSigma s w))) = (Ret (Some R), s2) /\
    self s2 = mkInfo (Some R) true (file s) /\
    fs (world s2) !! path s = Some (Text c).
Proof.
  intros Hm (Hne & kw & Hj & Ht & Hk) Hf. rewrite deserialize_eq, params_setter_unfold.
  destruct (_serialize_sync_outcome (mkInfo v true (file s)) w) as (w' & E & _ & H).
  cbn [_params] in E, H. rewrite Hf in E, H. destruct H as [Hp _].
  change (path (mkInfo v true (file s))) with (path s) in Hp.
  rewrite E. cbn [fst snd self world _params]. intros H0 H1.
  repeat split.
  destruct w' as [m' fl' lg' tr']. cbn [fs faults] in *.
  rewrite _deserialize_sync_cases. cbv zeta.
  change (path (mkInfo v true (file s))) with (path s).
  rewrite Hp, Hm, (fault_at_0 _ H0), (fault_at_1 _ H1), Hne, Hj, Ht.
  cbn [call_TusUploadParams]. rewrite Hk.
  eexists. repeat split. cbn [world fs]. rewrite Hp. exact Hm.
Qed.

(** X13 — The log only grows: every call on the store, and a change of
    the files from outside, keeps the records already logged and appends
    at most two (an error and, when the cleanup fails too, a warning). *)
Theorem log_only_grows (c : call Params) (s : Sigma Params) :
  exists l,
    log (world (perform c s)) = (log (world s) ++ l)%list /\ length l <= 2.
Proof.
  assert (Hser : forall s0 w0, exists l,
      log (world (snd (_serialize_sync (mkSigma s0 w0)))) = (log w0 ++ l)%list /\
      length l <= 2).
  { intros s0 w0. destruct (_serialize_sync_outcome s0 w0) as (w' & E & _ & H).
    rewrite E. cbn [snd world].
    destruct (first_failure _ _) as [e|].
    - destruct H as [_ H]. destruct (write_handled e).
      + destruct H as [[-> _] | [ce ->]]; eexists; split; try reflexivity; cbn; lia.
      + exists []. rewrite app_nil_r. split; [exact (proj1 H) | cbn; lia].
    - destruct H as (_ & _ & ->). exists []. rewrite app_nil_r. split; [reflexivity | cbn; lia]. }
  assert (Hde : forall s0 w0, exists l,
      log (world (snd (_deserialize_sync (mkSigma s0 w0)))) = (log w0 ++ l)%list /\
      length l <= 2).
  { intros s0 w0. destruct (_deserialize_sync_effects s0 w0) as (_ & l & _ & _ & Hl & Hn).
    exists l. split; [exact Hl | lia]. }
  assert (Hget : forall s0 w0, exists l,
      log (world (snd (params (mkSigma s0 w0)))) = (log w0 ++ l)%list /\
      length l <= 2).
  { intros s0 w0. rewrite params_unfold. destruct (_loaded s0).
    - exists []. rewrite app_nil_r. split; [reflexivity | cbn; lia].
    - destruct (Hde s0 w0) as (l & Hl & Hn). exists l. split; [|exact Hn].
      destruct (_deserialize_sync (mkSigma s0 w0)) as [[v|e] s1]; exact Hl. }
  destruct s as [s w]. cbn [world].
  destruct c; cbn [perform];
    rewrite ?load_params_eq, ?update_params_eq, ?serialize_eq, ?deserialize_eq,
            ?params_setter_unfold; auto.
  all: exists []; rewrite app_nil_r; split; [reflexivity | cbn; lia].
Qed.


(** ** Accessor calls that return, and those that raise *)

(** X15 — A load that returns is cached: once [get()] or [asyncGet()]
    has returned a value, the store is loaded, and every later [get()] or
    [asyncGet()] on it, in whatever world, returns that value with no
    system call and no log record. *)
Theorem returned_load_is_cached
    (s : Sigma Params) (v : option Params) (s1 : Sigma Params) :
  params s = (Ret v, s1) ->
  load_params s = (Ret v, s1) /\
  _loaded (self s1) = true /\
  forall w2,
    params (mkSigma (self s1) w2) = (Ret v, mkSigma (self s1) w2) /\
    load_params (mkSigma (self s1) w2) = (Ret v, mkSigma (self s1) w2).
Proof.
  intros E. rewrite load_params_eq.
  destruct (params_returns_loaded s v s1 E) as [Hl ->].
  split; [exact E|]. split; [exact Hl|].
  intros w2. rewrite params_unfold, Hl. split; reflexivity.
Qed.

(** X16 — How often the accessors read the disk: over any sequence of
    calls on a store, the accessor calls that reach the filesystem are at
    most one more than the accessor calls that raise; a sequence in which
    no accessor call raises has at most one. *)
Theorem accessor_loads_bound (cs : list (call Params)) (s : Sigma Params) :
  accessor_loads cs s <= 1 + accessor_failures cs s.
Proof.
  revert s. induction cs as [|c cs IH]; intros s; [cbn; lia|].
  destruct (_loaded (self s)) eqn:Hl.
  { rewrite (accessor_loads_when_loaded (c :: cs) s Hl). lia. }
  cbn [accessor_loads accessor_failures].
  specialize (IH (perform c s)).
  destruct (is_accessor c) eqn:Ha; cbn [andb].
  - assert (Hc : perform c s = snd (params s) /\
                 accessor_raises c s =
                   match fst (params s) with Raise _ => true | Ret _ => false end).
    { destruct c; try discriminate Ha; cbn [perform accessor_raises];
        rewrite ?load_params_eq; auto. }
    destruct Hc as [Hp Hr]. rewrite Hr.
    destruct (params s) as [[v|e] s1] eqn:E; cbn [fst snd] in *.
    + destruct (params_returns_loaded s v s1 E) as [Hl1 _].
      rewrite Hp. rewrite (accessor_loads_when_loaded cs s1 Hl1).
      destruct (negb _); lia.
    + destruct (negb _); lia.
  - assert (Hr : accessor_raises c s = false) by (destruct c; try discriminate Ha; reflexivity).
    rewrite Hr. lia.
Qed.

End Properties.

(** * The store on the sample class *)

Import Sample.
Import Scenario.

Lemma sample_roundtrips : roundtrips a_record.
Proof.
  eexists _, _. repeat split; vm_compute; reflexivity.
Qed.

(** C1, on the sample record. *)
Lemma set_then_fresh_get_roundtrip_witness :
  __init__ a_file None after_set = (Ret tt, mkSigma (fresh a_file) after_set) /\
  exists s2,
    params (mkSigma (fresh a_file) after_set) = (Ret (Some a_record), s2) /\
    load_params (mkSigma (fresh a_file) after_set) = (Ret (Some a_record), s2).
Proof.
  apply (set_then_fresh_get_roundtrip cold no_files a_record a_file
           (snd (params_setter (Some a_record) (mkSigma cold no_files)))).
  - exact sample_roundtrips.
  - reflexivity.
  - vm_compute. reflexivity.
  - vm_compute. reflexivity.
  - vm_compute. reflexivity.
Defined.

(** C2, as stated, fails three times over. In a directory with no info
    file, [get()] and [asyncGet()] return [None] and the log stays empty:
    no cause is logged. Over an info file of one byte that is no UTF-8,
    they raise [UnicodeDecodeError] out of the read, with [_loaded] still
    false. With the validating class over an object that lacks fields,
    [get()] raises the [ValueError] of the constructor. *)
Lemma absent_file_silent_corrupt_file_raises :
  (params (mkSigma cold no_files) =
     (Ret None, mkSigma (mkInfo None true a_file) (mkWorld ∅ [] [] [SysStat a_path])) /\
   load_params (mkSigma cold no_files) =
     (Ret None, mkSigma (mkInfo None true a_file) (mkWorld ∅ [] [] [SysStat a_path]))) /\
  (params (mkSigma cold Scenario2.garbled) =
     (Raise (UnicodeDecodeError "invalid start byte"),
      mkSigma cold (mkWorld (fs Scenario2.garbled) [] []
                      [SysStat a_path; SysOpenR a_path; SysRead a_path])) /\
   load_params (mkSigma cold Scenario2.garbled) =
     (Raise (UnicodeDecodeError "invalid start byte"),
      mkSigma cold (mkWorld (fs Scenario2.garbled) [] []
                      [SysStat a_path; SysOpenR a_path; SysRead a_path]))) /\
  @params Params Validating.validating_class
      (mkSigma cold (with_file Scenario2.a_partial_document [])) =
    (Raise (ValueError "validation error"),
     mkSigma cold (mkWorld {[ a_path := Text Scenario2.a_partial_document ]} [] []
                     [SysStat a_path; SysOpenR a_path; SysRead a_path])).
Proof. repeat split; vm_compute; reflexivity. Qed.

(** C2 (amended), on a file that is not JSON. *)
Lemma read_path_degrades_witness :
  exists w',
    params (mkSigma (fresh a_file) (with_file "{not valid json" [])) =
      (Ret None, mkSigma (mkInfo None true a_file) w') /\
    load_params (mkSigma (fresh a_file) (with_file "{not valid json" [])) =
      (Ret None, mkSigma (mkInfo None true a_file) w') /\
    log w' = ([] ++ [LogEntry ERROR
                       (CorruptedJSON a_path (JSONDecodeError "{not valid json"))])%list /\
    fs w' = {[ a_path := Text "{not valid json" ]}.
Proof.
  apply (read_path_degrades a_file (with_file "{not valid json" [])).
  apply (MalformedJSON _ _ "{not valid json" (JSONDecodeError "{not valid json"));
    vm_compute; reflexivity.
Defined.

(** C3, on the record with a datetime in [expires]: [json.dumps] raises
    [AttributeError] after the temp file was opened; the exception leaves
    [_serialize_sync] and [serialize] with the empty temp file still
    there, no removal attempted and nothing logged. *)
Lemma unhandled_persist_failure_skips_cleanup_witness :
  exists w',
    _serialize_sync (mkSigma (mkInfo (Some an_unserializable_record) true a_file) no_files) =
      (Raise (OtherException "AttributeError" "datetime object has no attribute __dict__"),
       mkSigma (mkInfo (Some an_unserializable_record) true a_file) w') /\
    serialize (mkSigma (mkInfo (Some an_unserializable_record) true a_file) no_files) =
      (Raise (OtherException "AttributeError" "datetime object has no attribute __dict__"),
       mkSigma (mkInfo (Some an_unserializable_record) true a_file) w') /\
    log w' = log no_files /\
    fs w' !! (path (mkInfo (Some an_unserializable_record) true a_file) +:+ ".tmp") =
      Some (Text "") /\
    trace w' =
      (trace no_files ++
       [SysOpenW (path (mkInfo (Some an_unserializable_record) true a_file) +:+ ".tmp")])%list.
Proof.
  apply (unhandled_persist_failure_skips_cleanup
           (mkInfo (Some an_unserializable_record) true a_file) no_files
           (OtherException "AttributeError" "datetime object has no attribute __dict__"));
    vm_compute; reflexivity.
Defined.

(** The same run, with the world it ends in written out. *)
Example datetime_record_leaves_temp_file :
  _serialize_sync (mkSigma (mkInfo (Some an_unserializable_record) true a_file) no_files) =
    (Raise (OtherException "AttributeError" "datetime object has no attribute __dict__"),
     mkSigma (mkInfo (Some an_unserializable_record) true a_file)
       (mkWorld {[ a_temp_path := Text "" ]} [] [] [SysOpenW a_temp_path])).
Proof. vm_compute. reflexivity. Qed.

(** X14, on a disk that fills up during the write. *)
Lemma persist_failure_cleanup_witness :
  exists w',
    _serialize_sync (mkSigma warm (mkWorld ∅ [NoFault; Fault ENOSPC 7] [] [])) =
      (Raise (OSError ENOSPC), mkSigma warm w') /\
    serialize (mkSigma warm (mkWorld ∅ [NoFault; Fault ENOSPC 7] [] [])) =
      (Raise (OSError ENOSPC), mkSigma warm w') /\
    ((log w' = ([] ++ [write_error (path warm) (OSError ENOSPC)])%list /\
      fs w' !! (path warm +:+ ".tmp") = None) \/
     (exists ce,
        log w' = ([] ++ [write_error (path warm) (OSError ENOSPC);
                         LogEntry WARNING (CleanupFailed (path warm +:+ ".tmp") ce)])%list)).
Proof.
  apply (persist_failure_cleanup warm (mkWorld ∅ [NoFault; Fault ENOSPC 7] [] [])
           (OSError ENOSPC)); vm_compute; reflexivity.
Defined.

(** C4, on a rename that is refused while an older file is in place. *)
Lemma failed_set_window_witness :
  exists w',
    params_setter (Some a_record)
        (mkSigma cold (with_file "null" [NoFault; NoFault; NoFault; NoFault; Fault EACCES 0])) =
      (Raise (OSError EACCES), mkSigma (mkInfo (Some a_record) true (file cold)) w') /\
    update_params (Some a_record)
        (mkSigma cold (with_file "null" [NoFault; NoFault; NoFault; NoFault; Fault EACCES 0])) =
      (Raise (OSError EACCES), mkSigma (mkInfo (Some a_record) true (file cold)) w') /\
    fs w' !! path cold =
      fs (with_file "null" [NoFault; NoFault; NoFault; NoFault; Fault EACCES 0]) !! path cold.
Proof.
  apply (failed_set_window cold
           (with_file "null" [NoFault; NoFault; NoFault; NoFault; Fault EACCES 0])
           (Some a_record) (OSError EACCES)).
  vm_compute. reflexivity.
Defined.

(** C5, on the info file of one byte that is no UTF-8: two calls of
    [get()], six system calls. *)
Lemma raising_load_is_retried_witness :
  exists w1 w2,
    params (mkSigma cold Scenario2.garbled) =
      (Raise (UnicodeDecodeError "invalid start byte"), mkSigma cold w1) /\
    load_params (mkSigma cold Scenario2.garbled) =
      (Raise (UnicodeDecodeError "invalid start byte"), mkSigma cold w1) /\
    trace w1 = (trace Scenario2.garbled ++
                [SysStat (path cold); SysOpenR (path cold); SysRead (path cold)])%list /\
    params (mkSigma cold w1) =
      (Raise (UnicodeDecodeError "invalid start byte"), mkSigma cold w2) /\
    trace w2 = (trace w1 ++
                [SysStat (path cold); SysOpenR (path cold); SysRead (path cold)])%list.
Proof.
  apply (raising_load_is_retried cold Scenario2.garbled
           (String (ascii_of_nat 255) EmptyString)); vm_compute; reflexivity.
Defined.

(** C7, in the empty directory. *)
Lemma create_on_construct_witness :
  exists w',
    __init__ a_file (Some a_record) no_files =
      (outcome (first_failure (json_dumps_default a_record) (faults no_files)),
       mkSigma (mkInfo (Some a_record) true a_file) w') /\
    match first_failure (json_dumps_default a_record) (faults no_files) with
    | None =>
        exists body, json_dumps_default a_record = Ret body /\
                     fs w' !! path_of_file a_file = Some (Text body)
    | Some _ => fs w' !! path_of_file a_file = None
    end.
Proof.
  apply (create_on_construct a_file a_record no_files); vm_compute; reflexivity.
Defined.

(** C8, on the sample: the store holds [a_record], the file was truncated
    to nothing; [deserialize] returns [None] and the store still holds
    [a_record]. *)
Lemma empty_file_keeps_cached_record_witness :
  exists w',
    deserialize (mkSigma warm (with_file "" [])) = (Ret None, mkSigma warm w') /\
    _deserialize_sync (mkSigma warm (with_file "" [])) = (Ret None, mkSigma warm w') /\
    log w' = ([] ++ [LogEntry WARNING (InfoFileEmpty (path warm))])%list /\
    (_loaded warm = false ->
     params (mkSigma warm (with_file "" [])) =
       (Ret (_params warm), mkSigma (mkInfo (_params warm) true (file warm)) w')).
Proof.
  apply (empty_file_keeps_cached_record warm (with_file "" []) "");
    vm_compute; reflexivity.
Defined.

(** C9, over a file that holds another record: the cache and the file
    differ after construction. *)
Lemma construct_over_existing_file_witness :
  exists w',
    __init__ a_file (Some a_record) (with_file "null" []) =
      (Ret tt, mkSigma (mkInfo (Some a_record) true a_file) w') /\
    fs w' = fs (with_file "null" []) /\
    faults w' = faults (with_file "null" []) /\
    log w' = log (with_file "null" []) /\
    (trace w' = trace (with_file "null" []) \/
     trace w' = (trace (with_file "null" []) ++ [SysStat (path_of_file a_file)])%list) /\
    forall v w2 s2,
      params_setter v (mkSigma (mkInfo (Some a_record) true a_file) w2) = (Ret tt, s2) ->
      self s2 = mkInfo v true a_file /\
      exists body, json_dumps v = Ret body /\
                   fs (world s2) !! path_of_file a_file = Some (Text body).
Proof.
  apply (construct_over_existing_file a_file a_record (with_file "null" []) (Text "null")).
  vm_compute. reflexivity.
Defined.

(** C10, on the info file of one byte that is no UTF-8: three calls of
    [get()], three loads. *)
Lemma loaded_monotone_load_retried_witness :
  accessor_loads (repeat CallGet 3) (mkSigma cold Scenario2.garbled) = 3.
Proof.
  apply (proj2 loaded_monotone_load_retried 3 cold Scenario2.garbled
           (String (ascii_of_nat 255) EmptyString)); vm_compute; reflexivity.
Defined.

(** * The further properties on the sample class *)

Import Scenario2.

(** X1, in the empty directory. *)
Lemma successful_persist_witness :
  exists body w',
    json_dumps (Some a_record) = Ret body /\
    params_setter (Some a_record) (mkSigma cold no_files) =
      (Ret tt, mkSigma (mkInfo (Some a_record) true (file cold)) w') /\
    update_params (Some a_record) (mkSigma cold no_files) =
      (Ret tt, mkSigma (mkInfo (Some a_record) true (file cold)) w') /\
    fs w' !! path cold = Some (Text body) /\
    fs w' !! (path cold +:+ ".tmp") = None /\
    (forall q, q <> path cold -> q <> path cold +:+ ".tmp" ->
               fs w' !! q = fs no_files !! q) /\
    log w' = log no_files /\
    trace w' = (trace no_files ++ persist_calls (path cold) (path cold +:+ ".tmp"))%list.
Proof.
  apply (successful_persist cold no_files (Some a_record)).
  vm_compute. reflexivity.
Defined.

(** X3: a [set] on the store of upload 3f2a leaves the info file of
    upload 77aa alone. *)
Lemma other_info_file_untouched_witness :
  fs (world (perform (CallSet (Some a_record)) (mkSigma cold (with_file "null" []))))
    !! path_of_file b_file =
  fs (world (mkSigma cold (with_file "null" []))) !! path_of_file b_file.
Proof.
  apply (other_info_file_untouched (CallSet (Some a_record))
           (mkSigma cold (with_file "null" [])) b_file).
  - reflexivity.
  - vm_compute. discriminate.
Defined.

(** X4, on the two sample uploads: their paths differ, as their
    identifiers do; on one upload the premises hold. *)
Lemma path_injective_witness : uid a_file = uid a_file.
Proof.
  apply (path_injective a_file a_file); reflexivity.
Defined.

(** X6, on a file holding an empty object. *)
Lemma falsy_document_loads_none_witness :
  exists w',
    _deserialize_sync (mkSigma warm (with_file "{}" [])) =
      (Ret None, mkSigma (mkInfo None (_loaded warm) (file warm)) w') /\
    deserialize (mkSigma warm (with_file "{}" [])) =
      (Ret None, mkSigma (mkInfo None (_loaded warm) (file warm)) w') /\
    log w' = log (with_file "{}" []) /\ fs w' = fs (with_file "{}" []) /\
    (_loaded warm = false ->
     params (mkSigma warm (with_file "{}" [])) =
       (Ret None, mkSigma (mkInfo None true (file warm)) w') /\
     load_params (mkSigma warm (with_file "{}" [])) =
       (Ret None, mkSigma (mkInfo None true (file warm)) w')).
Proof.
  apply (falsy_document_loads_none warm (with_file "{}" []) "{}" (JDict []));
    vm_compute; reflexivity.
Defined.

(** X7, in the empty directory. *)
Lemma set_none_roundtrip_witness :
  fs (world (snd (params_setter None (mkSigma cold no_files)))) !! path cold = Some (Text "null") /\
  exists w',
    params (mkSigma (fresh a_file) (world (snd (params_setter None (mkSigma cold no_files))))) =
      (Ret None, mkSigma (mkInfo None true a_file) w') /\
    log w' = log (world (snd (params_setter None (mkSigma cold no_files)))).
Proof.
  apply (set_none_roundtrip cold no_files
           (snd (params_setter None (mkSigma cold no_files))) a_file);
    vm_compute; reflexivity.
Defined.

(** X8, on a file holding a list. *)
Lemma non_mapping_document_rejected_witness :
  exists w',
    _deserialize_sync (mkSigma cold (with_file "[1, 2]" [])) =
      (Ret None, mkSigma (mkInfo None (_loaded cold) (file cold)) w') /\
    deserialize (mkSigma cold (with_file "[1, 2]" [])) =
      (Ret None, mkSigma (mkInfo None (_loaded cold) (file cold)) w') /\
    log w' =
      (log (with_file "[1, 2]" []) ++
       [LogEntry ERROR
          (InvalidDataStructure (path cold)
             (TypeError "argument after ** must be a mapping"))])%list /\
    (_loaded cold = false ->
     params (mkSigma cold (with_file "[1, 2]" [])) =
       (Ret None, mkSigma (mkInfo None true (file cold)) w')).
Proof.
  apply (non_mapping_document_rejected cold (with_file "[1, 2]" []) "[1, 2]"
           (JList [JInt 1; JInt 2]));
    vm_compute; reflexivity.
Defined.

(** X10, on the document of the sample record, bare and padded. *)
Lemma load_ignores_surrounding_whitespace_witness :
  fst (_deserialize_sync (mkSigma cold (with_file a_document []))) =
  fst (_deserialize_sync (mkSigma cold (with_file (newline_padded a_document) []))).
Proof.
  apply (load_ignores_surrounding_whitespace cold
           {[ a_path := Text a_document ]} {[ a_path := Text (newline_padded a_document) ]}
           [] [] [] a_document (newline_padded a_document));
    vm_compute; reflexivity.
Defined.

(** X11, on the validating class and a file that lacks fields: [get()]
    raises the [ValueError] of the constructor and the store is as
    before. *)
Lemma raising_get_caches_nothing_witness :
  _loaded cold = false /\
  read_handled (ValueError "validation error") = false /\
  self (snd (@params Params Validating.validating_class
               (mkSigma cold (with_file a_partial_document [])))) = cold.
Proof.
  destruct (@raising_get_caches_nothing Params Validating.validating_class
              cold (with_file a_partial_document []) (ValueError "validation error")
              (snd (@params Params Validating.validating_class
                      (mkSigma cold (with_file a_partial_document [])))))
    as (H1 & H2 & H3 & _).
  - vm_compute. reflexivity.
  - auto.
Defined.

(** X12, on a refused write over the document of the sample record. *)
Lemma deserialize_after_failed_set_witness :
  fst (params_setter None (mkSigma cold (with_file a_document [Fault EACCES 0]))) =
    Raise (OSError EACCES) /\
  _params (self (snd (params_setter None
                        (mkSigma cold (with_file a_document [Fault EACCES 0]))))) = None /\
  exists s2,
    deserialize (snd (params_setter None
                        (mkSigma cold (with_file a_document [Fault EACCES 0])))) =
      (Ret (Some a_record), s2) /\
    self s2 = mkInfo (Some a_record) true (file cold) /\
    fs (world s2) !! path cold = Some (Text a_document).
Proof.
  apply (deserialize_after_failed_set cold (with_file a_document [Fault EACCES 0])
           None (OSError EACCES) a_document a_record).
  - vm_compute. reflexivity.
  - split; [vm_compute; reflexivity|]. eexists. repeat split; vm_compute; reflexivity.
  - vm_compute. reflexivity.
  - vm_compute. reflexivity.
  - vm_compute. reflexivity.
Defined.

(** X15, on the document of the sample record. *)
Lemma returned_load_is_cached_witness :
  load_params (mkSigma cold (with_file a_document [])) =
    (Ret (Some a_record), snd (params (mkSigma cold (with_file a_document [])))) /\
  _loaded (self (snd (params (mkSigma cold (with_file a_document []))))) = true /\
  forall w2,
    params (mkSigma (self (snd (params (mkSigma cold (with_file a_document []))))) w2) =
      (Ret (Some a_record),
       mkSigma (self (snd (params (mkSigma cold (with_file a_document []))))) w2) /\
    load_params (mkSigma (self (snd (params (mkSigma cold (with_file a_document []))))) w2) =
      (Ret (Some a_record),
       mkSigma (self (snd (params (mkSigma cold (with_file a_document []))))) w2).
Proof.
  apply (returned_load_is_cached (mkSigma cold (with_file a_document []))
           (Some a_record) (snd (params (mkSigma cold (with_file a_document []))))).
  vm_compute. reflexivity.
Defined.
